(** * SurveyNav: json_to_yaml.py

    A shallow embedding of [app/src/main/assets/json_to_yaml.py], the script
    that turns the survey JSON into a YAML-ready tree: prompt texts become
    literal block scalars, long questions become folded block scalars.

    Python values are modelled by the trees [json.load] builds ([json]) and
    the trees handed to [yaml.dump] ([yaml]); a Python [str] is a list of
    code points; an exception is a value of [exn] carried by [result]. *)

From Stdlib Require Import ZArith NArith String Ascii Floats.SpecFloat.
From stdpp Require Import base option list.

Local Open Scope N_scope.
Set Warnings "-register-all".
Set Default Proof Using "Type".
Set Default Goal Selector "!".

(** ** Python strings *)

(** A [str] is a sequence of Unicode code points. *)
Definition str : Type := list N.

(** A source literal, read as the code points of its (ASCII) characters. *)
Definition lit (s : string) : str := List.map N_of_ascii (list_ascii_of_string s).

Definition LF : N := 10.
Definition CR : N := 13.

Definition str_eqb (a b : str) : bool := bool_decide (a = b).

(** [s.startswith(p)] *)
Fixpoint startswith (p s : str) : bool :=
  match p, s with
  | [], _ => true
  | _ :: _, [] => false
  | a :: p', b :: s' => (a =? b) && startswith p' s'
  end.

(** [sub in s] for two strings: [sub] occurs in [s] as a substring. *)
Fixpoint contains (sub s : str) : bool :=
  startswith sub s ||
  match s with
  | [] => false
  | _ :: s' => contains sub s'
  end.

(** [s.replace(old, new)]: every non-overlapping occurrence of [old], from the
    left, is replaced by [new].  [skip] counts the characters of an occurrence
    that are still to be dropped. *)
Fixpoint replace_from (old new : str) (skip : nat) (s : str) : str :=
  match s with
  | [] =>
      match skip, old with
      | O, [] => new
      | _, _ => []
      end
  | c :: r =>
      match skip with
      | S k => replace_from old new k r
      | O =>
          if startswith old s then
            match old with
            | [] => new ++ c :: replace_from old new 0 r
            | _ :: old' => new ++ replace_from old new (length old') r
            end
          else c :: replace_from old new 0 r
      end
  end.

Definition replace (old new s : str) : str := replace_from old new 0 s.

(** [s.rstrip(chars)]: the trailing characters that occur in [chars] are
    removed, all of them. *)
Fixpoint rstrip (chars s : str) : str :=
  match s with
  | [] => []
  | c :: r =>
      match rstrip chars r with
      | [] => if existsb (N.eqb c) chars then [] else [c]
      | r' => c :: r'
      end
  end.

(** ** The script's string helpers *)

(** Lines 31-36. *)
Definition is_short_plain_question (s : str) : bool :=
  match s with
  | [] => true
  | _ :: _ => negb (contains [LF] s) && (length s <=? 40)%nat
  end.

(** The expression [text.replace("\r\n", "\n").replace("\r", "\n").rstrip("\n")]
    of lines 42 and 52. *)
Definition normalize (text : str) : str :=
  rstrip [LF] (replace [CR] [LF] (replace [CR; LF] [LF] text)).

(** ** Values *)

(** What [json.load] returns.  A [dict] keeps its items in insertion order,
    so it is an association list (with distinct keys). *)
Inductive json : Type :=
| JNull
| JBool (b : bool)
| JInt (z : Z)
| JFloat (f : spec_float)
| JStr (s : str)
| JList (l : list json)
| JDict (d : list (str * json)).

(** The hashable values: what the key of a dict can be.  Dicts read from JSON
    have [KStr] keys only; [dict(n)] of a list of pairs can produce the
    others. *)
Inductive key : Type :=
| KNone
| KBool (b : bool)
| KInt (z : Z)
| KFloat (f : spec_float)
| KStr (s : str).

(** The tree [transform] returns: objects of the input passed on as they are
    ([YJson]), the two ruamel scalar-string classes, and the lists and dicts
    the function builds itself. *)
Inductive yaml : Type :=
| YJson (v : json)
| YLiteral (s : str)     (* LiteralScalarString: a literal block, "|-" *)
| YFolded (s : str)      (* FoldedScalarString: a folded block, ">-" *)
| YList (l : list yaml)
| YDict (d : list (key * yaml)).

(** ** Exceptions *)

Inductive exn : Type :=
| TypeError
| AttributeError
| ValueError
| KeyError
| External (what : str).   (* raised by the I/O, json or yaml libraries *)

Inductive result (A : Type) : Type :=
| Ok (a : A)
| Raise (e : exn).
Arguments Ok {A} a.
Arguments Raise {A} e.

#[global] Instance result_ret : MRet result := @Ok.
#[global] Instance result_bind : MBind result := λ A B f m,
  match m with
  | Ok a => f a
  | Raise e => Raise e
  end.

(** ** Dict keys *)

(** The numeric value of a key: [m * 2^e], an infinity, or the NaN. *)
Inductive number : Type :=
| Finite (m e : Z)
| Infinite (negative : bool)
| NotANumber.

Definition float_number (f : spec_float) : number :=
  match f with
  | S754_zero _ => Finite 0 0
  | S754_infinity s => Infinite s
  | S754_nan => NotANumber
  | S754_finite s m e => Finite (if s then Z.neg m else Z.pos m) e
  end.

Definition key_number (k : key) : option number :=
  match k with
  | KBool b => Some (Finite (Z.b2z b) 0)
  | KInt z => Some (Finite z 0)
  | KFloat f => Some (float_number f)
  | KNone | KStr _ => None
  end.

(** Two numbers select the same dict slot when they are [==]; the NaN of a
    JSON document is one object ([json.decoder.NaN]), found by identity. *)
Definition number_eqb (a b : number) : bool :=
  match a, b with
  | Finite m1 e1, Finite m2 e2 =>
      let e := Z.min e1 e2 in
      (m1 * 2 ^ (e1 - e) =? m2 * 2 ^ (e2 - e))%Z
  | Infinite s1, Infinite s2 => Bool.eqb s1 s2
  | NotANumber, NotANumber => true
  | _, _ => false
  end.

Definition key_eqb (a b : key) : bool :=
  match a, b with
  | KNone, KNone => true
  | KStr s, KStr t => str_eqb s t
  | _, _ =>
      match key_number a, key_number b with
      | Some x, Some y => number_eqb x y
      | _, _ => false
      end
  end.

(** ** Dict operations *)

Section Dict.
Context {K V : Type} (eqb : K → K → bool).

(** [k in d], [d.get(k)] *)
Fixpoint assoc (k : K) (d : list (K * V)) : option V :=
  match d with
  | [] => None
  | (k', v) :: d' => if eqb k' k then Some v else assoc k d'
  end.

(** [d[k] = v]: the value of an existing key is replaced where it stands, a
    new key is added at the end. *)
Fixpoint setitem (k : K) (v : V) (d : list (K * V)) : list (K * V) :=
  match d with
  | [] => [(k, v)]
  | (k', v') :: d' => if eqb k' k then (k', v) :: d' else (k', v') :: setitem k v d'
  end.
End Dict.

Definition dict_get (d : list (str * json)) (k : str) : option json := assoc str_eqb k d.

(** ** The Python operations the script applies to a JSON value *)

(** [o.get(k, dflt)]: only a dict has the method. *)
Definition py_get (o : json) (k : str) (dflt : json) : result json :=
  match o with
  | JDict d => Ok (default dflt (dict_get d k))
  | _ => Raise AttributeError
  end.

(** [for x in o]: the items of a list, the characters of a string, the keys
    of a dict. *)
Definition py_iter (o : json) : result (list json) :=
  match o with
  | JList l => Ok l
  | JStr s => Ok ((λ c, JStr [c]) <$> s)
  | JDict d => Ok ((λ kv, JStr kv.1) <$> d)
  | JNull | JBool _ | JInt _ | JFloat _ => Raise TypeError
  end.

(** [k in o] for a string [k]. *)
Definition py_in (k : str) (o : json) : result bool :=
  match o with
  | JDict d => Ok (bool_decide (is_Some (dict_get d k)))
  | JList l => Ok (existsb (λ x, match x with JStr s => str_eqb s k | _ => false end) l)
  | JStr s => Ok (contains k s)
  | JNull | JBool _ | JInt _ | JFloat _ => Raise TypeError
  end.

(** [o[k]] for a string [k]. *)
Definition py_getitem (o : json) (k : str) : result json :=
  match o with
  | JDict d =>
      match dict_get d k with
      | Some v => Ok v
      | None => Raise KeyError
      end
  | _ => Raise TypeError
  end.

(** [hash(o)]: lists and dicts are unhashable. *)
Definition py_key (o : json) : result key :=
  match o with
  | JNull => Ok KNone
  | JBool b => Ok (KBool b)
  | JInt z => Ok (KInt z)
  | JFloat f => Ok (KFloat f)
  | JStr s => Ok (KStr s)
  | JList _ | JDict _ => Raise TypeError
  end.

(** One element of the sequence given to [dict(...)]: an iterable of exactly
    two items, the key and the value. *)
Definition py_pair (x : json) : result (json * json) :=
  l ← py_iter x;
  match l with
  | [k; v] => Ok (k, v)
  | _ => Raise ValueError
  end.

(** The pairs of [l] stored into [d] one after the other: the key is hashed
    when its pair is stored. *)
Fixpoint dict_update (d : list (key * json)) (l : list json) : result (list (key * json)) :=
  match l with
  | [] => Ok d
  | x :: l' =>
      kv ← py_pair x;
      k ← py_key kv.1;
      dict_update (setitem key_eqb k kv.2 d) l'
  end.

(** [dict(n)]: a copy of a dict; otherwise the dict of a sequence of pairs. *)
Definition py_dict (n : json) : result (list (key * json)) :=
  match n with
  | JDict d => Ok (prod_map KStr id <$> d)
  | _ => l ← py_iter n; dict_update [] l
  end.

(** [isinstance(q, str)], with the characters of [q]; the two scalar-string
    classes derive from [str]. *)
Definition isinstance_str (q : yaml) : option str :=
  match q with
  | YJson (JStr s) | YLiteral s | YFolded s => Some s
  | _ => None
  end.

(** ** The script *)

(** Lines 39-47.  [text.replace] exists on strings only.  Lines 44-46 set
    the chomping on the format attribute [fa] of the scalar when it has one;
    the class and the text, which are what the tree holds, stay as they are,
    and the text has no line break at its end for the emitter to keep. *)
Definition as_literal_strip (text : json) : result yaml :=
  match text with
  | JStr s => Ok (YLiteral (normalize s))
  | _ => Raise AttributeError
  end.

(** Lines 50-57. *)
Definition as_folded_strip (text : json) : result yaml :=
  match text with
  | JStr s => Ok (YFolded (normalize s))
  | _ => Raise AttributeError
  end.

Definition k_prompts : str := lit "prompts".
Definition k_nodeId : str := lit "nodeId".
Definition k_prompt : str := lit "prompt".
Definition k_graph : str := lit "graph".
Definition k_startId : str := lit "startId".
Definition k_nodes : str := lit "nodes".
Definition k_question : str := lit "question".

(** Lines 71-76: the body of the loop over the prompts. *)
Definition prompt_entry (p : json) : result yaml :=
  node_id ← py_get p k_nodeId JNull;
  prompt_text ← py_get p k_prompt (JStr []);
  lit_text ← as_literal_strip prompt_text;
  Ok (YDict [(KStr k_nodeId, YJson node_id); (KStr k_prompt, lit_text)]).

(** Lines 92-101: the new value of a question that is a string. *)
Definition question_style (q : yaml) (s : str) : result yaml :=
  if (length s =? 0)%nat then Ok (YJson (JStr []))
  else if is_short_plain_question s then Ok q
  else as_folded_strip (JStr s).

(** Lines 90-102: the body of the loop over the nodes. *)
Definition node_entry (n : json) : result yaml :=
  d ← py_dict n;
  let n2 := prod_map id YJson <$> d in
  let q := default (YJson JNull) (assoc key_eqb (KStr k_question) n2) in
  match isinstance_str q with
  | Some s => q' ← question_style q s; Ok (YDict (setitem key_eqb (KStr k_question) q' n2))
  | None => Ok (YDict n2)
  end.

(** Lines 60-107. *)
Definition transform (data : json) : result yaml :=
  let out := [] in
  prompts ← py_get data k_prompts (JList []);
  ps ← py_iter prompts;
  prompts_out ← mapM prompt_entry ps;
  let out := setitem key_eqb (KStr k_prompts) (YList prompts_out) out in
  g_in ← py_get data k_graph (JDict []);
  let g_out := [] in
  has_start ← py_in k_startId g_in;
  g_out ← (if has_start : bool
           then v ← py_getitem g_in k_startId;
                Ok (setitem key_eqb (KStr k_startId) (YJson v) g_out)
           else Ok g_out);
  nodes ← py_get g_in k_nodes (JList []);
  ns ← py_iter nodes;
  nodes_out ← mapM node_entry ns;
  let g_out := setitem key_eqb (KStr k_nodes) (YList nodes_out) g_out in
  let out := setitem key_eqb (KStr k_graph) (YDict g_out) out in
  Ok (YDict out).

(** ** The driver *)

(** What [parse_args] returns. *)
Record args : Type := { input : str; output : option str }.

(** What a run has written when it ends. *)
Record outcome : Type := {
  stderr : list str;                      (* one entry per [print] *)
  exit_code : Z;
  emitted : option (option str * yaml);   (* the document dumped, and the file
                                             it went to ([None]: stdout) *)
}.

Inductive parse : Type :=
| Parsed (a : args)
| Exited (o : outcome).   (* argparse ends the run itself: usage error, --help *)

(** What a run finds outside the script. *)
Record world : Type := {
  ruamel_importable : bool;                 (* lines 23-25 *)
  parse_args : parse;                       (* argparse on sys.argv *)
  stdin_json : result json;                 (* json.load(sys.stdin) *)
  file_json : str → result json;            (* open(path), json.load(f) *)
  stdout_dump : yaml → result unit;         (* yaml.dump(doc, sys.stdout) *)
  file_dump : str → yaml → result unit;     (* open(path, "w"), yaml.dump(doc, f) *)
}.

Definition import_error : str :=
  lit "Error: ruamel.yaml is required. Install with: pip install ruamel.yaml".

Section Driver.
(** [str(e)], the text of an exception. *)
Variable exn_str : exn → str.

(** Lines 118-122. *)
Definition load_json (w : world) (path : str) : result json :=
  if str_eqb path (lit "-") || str_eqb path (lit "stdin")
  then stdin_json w
  else file_json w path.

(** Lines 137-141: [if args.output] holds for a non-empty path. *)
Definition dump_out (w : world) (a : args) (out_doc : yaml) : result (option str) :=
  match output a with
  | Some (_ :: _ as path) => _ ← file_dump w path out_doc; Ok (Some path)
  | Some [] | None => _ ← stdout_dump w out_doc; Ok None
  end.

(** Lines 135-141, the body of the [try]. *)
Definition convert (w : world) (a : args) : result (option str * yaml) :=
  data ← load_json w (input a);
  out_doc ← transform data;
  dest ← dump_out w a out_doc;
  Ok (dest, out_doc).

(** Lines 143-144: the handler of the [try]. *)
Definition failed (e : exn) : outcome :=
  {| stderr := [lit "Conversion failed: " ++ exn_str e];
     exit_code := 1; emitted := None |}.

(** Lines 132-144. *)
Definition main (w : world) : outcome :=
  match parse_args w with
  | Exited o => o
  | Parsed a =>
      match convert w a with
      | Ok e => {| stderr := []; exit_code := 0; emitted := Some e |}
      | Raise e => failed e
      end
  end.

(** The module, top to bottom: the import guard of lines 23-28, then [main]. *)
Definition script (w : world) : outcome :=
  if ruamel_importable w then main w
  else {| stderr := [import_error]; exit_code := 2; emitted := None |}.
End Driver.

(** ** Reading the input and the output *)

(** The prompts and the nodes the two loops run over. *)
Definition input_prompts (data : json) : list json :=
  match py_get data k_prompts (JList []) ≫= py_iter with
  | Ok l => l
  | Raise _ => []
  end.

Definition input_graph (data : json) : json :=
  match py_get data k_graph (JDict []) with
  | Ok g => g
  | Raise _ => JDict []
  end.

Definition input_nodes (data : json) : list json :=
  match py_get (input_graph data) k_nodes (JList []) ≫= py_iter with
  | Ok l => l
  | Raise _ => []
  end.

Definition ydict_get (y : yaml) (k : str) : option yaml :=
  match y with
  | YDict d => assoc key_eqb (KStr k) d
  | _ => None
  end.

Definition ylist (y : option yaml) : list yaml :=
  match y with
  | Some (YList l) => l
  | _ => []
  end.

Definition output_prompts (out : yaml) : list yaml := ylist (ydict_get out k_prompts).

Definition output_nodes (out : yaml) : list yaml :=
  ylist (ydict_get out k_graph ≫= λ g, ydict_get g k_nodes).

(** ** The spec's normalization *)

(** The spec's [normalize], in its words: each CRLF and each CR left alone
    becomes one LF; then all the LF at the end are removed. *)
Fixpoint line_endings_to_LF (s : str) : str :=
  match s with
  | [] => []
  | c :: r =>
      if c =? CR then
        LF :: match r with
              | [] => []
              | c' :: r' => if c' =? LF then line_endings_to_LF r' else line_endings_to_LF r
              end
      else c :: line_endings_to_LF r
  end.

Fixpoint drop_leading_LF (s : str) : str :=
  match s with
  | [] => []
  | c :: r => if c =? LF then drop_leading_LF r else s
  end.

Definition remove_trailing_LF (s : str) : str := rev (drop_leading_LF (rev s)).

(** ** Line breaks *)

(** The two characters [normalize] treats as the end of a line. *)
Definition line_break (c : N) : Prop := c = CR ∨ c = LF.

(** ** A node written as a list of pairs *)

(** The items of a mapping, each as the two-element list [[key, value]]. *)
Definition pairs_of (d : list (str * json)) : json :=
  JList ((λ kv, JList [JStr kv.1; kv.2]) <$> d).

(** ** The spec's classification of a question *)

(** The spec's [classify_question], in its words: the empty string stays the
    empty plain string; a short question stays as it is, plain; any other
    becomes the folded block of its normalized text. *)
Definition classify_question (q : str) : yaml :=
  if decide (length q = 0%nat) then YJson (JStr [])
  else if is_short_plain_question q then YJson (JStr q)
  else YFolded (normalize q).

(** The copy [n2] that line 90 makes of a node that is a dict. *)
Definition node_copy (d : list (str * json)) : list (key * yaml) :=
  prod_map id YJson <$> (prod_map KStr id <$> d).

(** The [startId] item of the output graph: there when the input graph has
    the key. *)
Definition start_item (g : list (str * json)) : list (key * yaml) :=
  match dict_get g k_startId with
  | Some v => [(KStr k_startId, YJson v)]
  | None => []
  end.

(** ** The documented shape of the input *)

Definition prompt_shaped (p : json) : bool :=
  match p with
  | JDict d =>
      match dict_get d k_prompt with
      | None | Some (JStr _) => true
      | Some _ => false
      end
  | _ => false
  end.

Definition node_shaped (n : json) : bool :=
  match n with
  | JDict _ => true
  | _ => false
  end.

Definition list_shaped (item : json → bool) (field : option json) : bool :=
  match field with
  | None => true
  | Some (JList l) => forallb item l
  | Some _ => false
  end.

Definition document_shaped (data : json) : bool :=
  match data with
  | JDict d =>
      list_shaped prompt_shaped (dict_get d k_prompts) &&
      match dict_get d k_graph with
      | None => true
      | Some (JDict g) => list_shaped node_shaped (dict_get g k_nodes)
      | Some _ => false
      end
  | _ => false
  end.

(** [None], a bool or a number: the values a [for] cannot run over. *)
Definition not_iterable (v : json) : bool :=
  match v with
  | JNull | JBool _ | JInt _ | JFloat _ => true
  | JStr _ | JList _ | JDict _ => false
  end.


(** ** A survey *)

(** The document of the spec's example, with two more nodes (a short question
    that ends in a CR, and a node without a question) and one more key on
    the prompt. *)
Definition hello_world : str := lit "Hello" ++ [CR; LF] ++ lit "World" ++ [LF; LF].

Definition long_question : str :=
  lit "This is a much longer question that definitely exceeds forty characters easily".

Definition ready_question : str := lit "Ready?" ++ [CR].

Definition prompt1 : list (str * json) :=
  [(k_nodeId, JStr (lit "n1")); (lit "lang", JStr (lit "en")); (k_prompt, JStr hello_world)].

Definition node1 : list (str * json) :=
  [(lit "id", JStr (lit "n1")); (k_question, JStr (lit "Start"))].
Definition node2 : list (str * json) :=
  [(lit "id", JStr (lit "n2")); (k_question, JStr long_question); (lit "next", JNull)].
Definition node3 : list (str * json) :=
  [(k_question, JStr ready_question); (lit "id", JStr (lit "n3"))].
Definition node4 : list (str * json) :=
  [(lit "id", JStr (lit "n4")); (lit "options", JList [JInt 1; JInt 2])].

Definition survey : json :=
  JDict [(k_prompts, JList [JDict prompt1]);
         (k_graph, JDict [(k_startId, JStr (lit "n1"));
                          (k_nodes, JList [JDict node1; JDict node2; JDict node3; JDict node4])])].

Definition survey_out : yaml :=
  YDict [(KStr k_prompts,
          YList [YDict [(KStr k_nodeId, YJson (JStr (lit "n1")));
                        (KStr k_prompt, YLiteral (lit "Hello" ++ [LF] ++ lit "World"))]]);
         (KStr k_graph,
          YDict [(KStr k_startId, YJson (JStr (lit "n1")));
                 (KStr k_nodes,
                  YList [YDict [(KStr (lit "id"), YJson (JStr (lit "n1")));
                                (KStr k_question, YJson (JStr (lit "Start")))];
                         YDict [(KStr (lit "id"), YJson (JStr (lit "n2")));
                                (KStr k_question, YFolded long_question);
                                (KStr (lit "next"), YJson JNull)];
                         YDict [(KStr k_question, YJson (JStr ready_question));
                                (KStr (lit "id"), YJson (JStr (lit "n3")))];
                         YDict [(KStr (lit "id"), YJson (JStr (lit "n4")));
                                (KStr (lit "options"), YJson (JList [JInt 1; JInt 2]))]])])].

(** A run on standard input and output, and a reading of exceptions. *)
Definition pipe_world (importable : bool) (read : result json) : world :=
  {| ruamel_importable := importable;
     parse_args := Parsed {| input := lit "-"; output := None |};
     stdin_json := read;
     file_json := λ _, Raise (External (lit "No such file or directory"));
     stdout_dump := λ _, Ok ();
     file_dump := λ _ _, Raise (External (lit "Permission denied")) |}.

Definition exn_name (e : exn) : str :=
  match e with
  | TypeError => lit "TypeError"
  | AttributeError => lit "AttributeError"
  | ValueError => lit "ValueError"
  | KeyError => lit "KeyError"
  | External what => what
  end.

(** ** More documents *)

(** A short question that ends in a line feed. *)
Definition hi_question : str := lit "Hi".

Definition node_hi : list (str * json) :=
  [(lit "id", JStr (lit "n5")); (k_question, JStr (hi_question ++ [LF]))].

Definition survey_hi : json :=
  JDict [(k_graph, JDict [(k_nodes, JList [JDict node_hi])])].

Definition survey_hi_out : yaml :=
  YDict [(KStr k_prompts, YList []);
         (KStr k_graph,
          YDict [(KStr k_nodes,
                  YList [YDict [(KStr (lit "id"), YJson (JStr (lit "n5")));
                                (KStr k_question, YFolded hi_question)]])])].

(** The survey's document with a key more at the top and in the graph. *)
Definition survey_top : list (str * json) :=
  [(lit "version", JInt 2);
   (k_prompts, JList [JDict prompt1]);
   (k_graph, JDict [(lit "title", JStr (lit "demo")); (k_startId, JStr (lit "n1"));
                    (k_nodes, JList [JDict node1; JDict node2; JDict node3; JDict node4])])].

(** * Properties *)

(** ** Strings *)

Lemma startswith_single (c : N) (s : str) :
  startswith [c] s = match s with [] => false | b :: _ => c =? b end.
Proof. destruct s as [|b s]; simpl; [done|]. by rewrite andb_true_r. Qed.

Lemma contains_single (c : N) (s : str) : contains [c] s = true ↔ c ∈ s.
Proof.
  induction s as [|b s IH].
  - simpl. split; [done|]. intros H. by apply elem_of_nil in H.
  - cbn [contains]. rewrite startswith_single, orb_true_iff, elem_of_cons, IH.
    by rewrite N.eqb_eq.
Qed.

Lemma contains_single_false (c : N) (s : str) : contains [c] s = false ↔ c ∉ s.
Proof.
  rewrite <- contains_single. destruct (contains [c] s); split; congruence.
Qed.

Lemma replace_char_cons (a b c : N) (s : str) :
  replace [a] [b] (c :: s) = (if a =? c then b else c) :: replace [a] [b] s.
Proof.
  unfold replace. cbn [replace_from]. rewrite startswith_single.
  by destruct (a =? c).
Qed.

Lemma replace_char_fresh (a b x : N) (s : str) :
  x ≠ b → x ∈ replace [a] [b] s → x ∈ s ∧ x ≠ a.
Proof.
  intros Hb. induction s as [|c s IH]; [by intros ?%elem_of_nil|].
  rewrite replace_char_cons, !elem_of_cons.
  destruct (N.eqb_spec a c) as [->|Hne]; intros [->|Hin]; try done.
  - destruct (IH Hin). auto.
  - split; [by left | done].
  - destruct (IH Hin). auto.
Qed.

Lemma replace_absent (a : N) (old new s : str) :
  a ∉ s → replace (a :: old) new s = s.
Proof.
  unfold replace. induction s as [|c s IH]; [done|].
  rewrite not_elem_of_cons. intros [Hne Hs].
  cbn [replace_from startswith].
  destruct (N.eqb_spec a c) as [->|_]; [done|]. simpl. by rewrite IH.
Qed.

Lemma rstrip_elem (chars s : str) (x : N) : x ∈ rstrip chars s → x ∈ s.
Proof.
  revert x. induction s as [|c s IH]; [done|]. intros x. cbn [rstrip].
  destruct (rstrip chars s) as [|y r] eqn:E.
  - destruct (existsb _ _); [by intros ?%elem_of_nil|].
    intros ->%list_elem_of_singleton. by left.
  - rewrite !elem_of_cons. intros [->|H]; [by left|]. right. apply IH.
    by rewrite elem_of_cons.
Qed.

Lemma rstrip_last (chars s : str) (x : N) :
  last (rstrip chars s) = Some x → x ∉ chars.
Proof.
  induction s as [|c s IH]; [done|]. cbn [rstrip].
  destruct (rstrip chars s) as [|y r] eqn:E.
  - destruct (existsb _ _) eqn:Ex; [done|]. intros [= <-] Hin.
    apply not_true_iff_false in Ex. apply Ex, existsb_exists.
    exists c. split; [by apply list_elem_of_In | apply N.eqb_refl].
  - intros H. apply IH. by rewrite <- H.
Qed.

Lemma rstrip_idemp (chars s : str) : rstrip chars (rstrip chars s) = rstrip chars s.
Proof.
  induction s as [|c s IH]; [done|]. cbn [rstrip].
  destruct (rstrip chars s) as [|y r] eqn:E.
  - destruct (existsb _ _) eqn:Ex; [done|]. cbn [rstrip]. by rewrite Ex.
  - change (rstrip chars (c :: y :: r))
      with (match rstrip chars (y :: r) with
            | [] => if existsb (N.eqb c) chars then [] else [c]
            | r' => c :: r'
            end).
    by rewrite IH.
Qed.

Lemma normalize_no_CR (t : str) : CR ∉ normalize t.
Proof.
  unfold normalize. intros H%rstrip_elem.
  by apply replace_char_fresh in H as [_ ?].
Qed.

Lemma replace_CRLF_cons (c : N) (r : str) :
  replace [CR; LF] [LF] (c :: r) =
  match r with
  | c' :: r' =>
      if (c =? CR) && (c' =? LF) then LF :: replace [CR; LF] [LF] r'
      else c :: replace [CR; LF] [LF] r
  | [] => [c]
  end.
Proof.
  unfold replace. cbn [replace_from startswith].
  rewrite (N.eqb_sym CR c).
  destruct r as [|c' r']; [by rewrite andb_false_r|].
  rewrite (N.eqb_sym LF c'), andb_true_r.
  by destruct ((c =? CR) && (c' =? LF)).
Qed.

(** The two [replace] of the code do what the spec says of the line endings. *)
Lemma replace_line_endings (t : str) :
  replace [CR] [LF] (replace [CR; LF] [LF] t) = line_endings_to_LF t.
Proof.
  assert (H : ∀ n (s : str), (length s ≤ n)%nat →
            replace [CR] [LF] (replace [CR; LF] [LF] s) = line_endings_to_LF s).
  { intros n. induction n as [|n IH]; intros [|c r] Hlen; try done.
    { simpl in Hlen. lia. }
    rewrite replace_CRLF_cons. cbn [line_endings_to_LF].
    destruct r as [|c' r'].
    - rewrite replace_char_cons, (N.eqb_sym CR c). by destruct (c =? CR).
    - simpl in Hlen.
      destruct (c =? CR) eqn:Ec; destruct (c' =? LF) eqn:Ec'; cbn [andb];
        rewrite replace_char_cons, 1?(N.eqb_sym CR c), ?Ec;
        (f_equal; apply IH; simpl; lia). }
  by apply (H (length t)).
Qed.

Lemma rstrip_snoc (chars s : str) (c : N) :
  rstrip chars (s ++ [c]) = if existsb (N.eqb c) chars then rstrip chars s else s ++ [c].
Proof.
  induction s as [|a s IH]; [done|].
  cbn [app rstrip]. rewrite IH.
  destruct (existsb (N.eqb c) chars); [done|]. by destruct s.
Qed.

(** [rstrip("\n")] removes all the LF at the end. *)
Lemma rstrip_LF (s : str) : rstrip [LF] s = remove_trailing_LF s.
Proof.
  unfold remove_trailing_LF.
  induction s as [|c s IH] using rev_ind; [done|].
  rewrite rstrip_snoc, rev_unit. cbn [drop_leading_LF existsb].
  rewrite orb_false_r.
  destruct (c =? LF); [done|]. by rewrite <- (rev_unit s c), rev_involutive.
Qed.

(** C2. [normalize] leaves no CR, leaves no LF at the end, and is idempotent;
    it is what the spec describes: CRLF and CR become LF, then all the LF at
    the end go. *)
Theorem normalize_canonical (t : str) :
  (CR ∉ normalize t) ∧
  (last (normalize t) ≠ Some LF) ∧
  normalize (normalize t) = normalize t ∧
  normalize t = remove_trailing_LF (line_endings_to_LF t).
Proof.
  split; [apply normalize_no_CR|]. split; [|split].
  - intros H. apply (rstrip_last [LF] _ LF) in H. apply H. by left.
  - pose proof (normalize_no_CR t) as Hcr.
    unfold normalize at 1.
    rewrite (replace_absent CR [LF] [LF]) by done.
    rewrite (replace_absent CR [] [LF]) by done.
    unfold normalize. apply rstrip_idemp.
  - unfold normalize. by rewrite replace_line_endings, rstrip_LF.
Qed.

(** ** The exception monad *)

Lemma bind_Ok {A B} (m : result A) (f : A → result B) (b : B) :
  m ≫= f = Ok b ↔ ∃ a, m = Ok a ∧ f a = Ok b.
Proof.
  destruct m as [a|e]; simpl.
  - split; [by exists a | by intros (? & [= ->] & ?)].
  - split; [done | by intros (? & ? & ?)].
Qed.

(** Splits a successful sequence of binds into its steps. *)
Ltac inv_bind H :=
  repeat match type of H with
  | _ ≫= _ = Ok _ =>
      let a := fresh "a" in
      let Ha := fresh "H" a in
      apply bind_Ok in H as (a & Ha & H)
  end.

Lemma mapM_Ok_Forall2 {A B} (f : A → result B) (l : list A) (k : list B) :
  mapM f l = Ok k ↔ Forall2 (λ x y, f x = Ok y) l k.
Proof.
  revert k. induction l as [|x l IH]; intros k.
  - split; [intros [= <-]; constructor | by intros ->%Forall2_nil_inv_l].
  - change (mapM f (x :: l)) with (y ← f x; k' ← mapM f l; Ok (y :: k')).
    split.
    + intros H. inv_bind H. injection H as <-. constructor; [done|]. by apply IH.
    + intros (y & k' & Hy & Hk & ->)%Forall2_cons_inv_l.
      apply bind_Ok. exists y. split; [done|].
      apply bind_Ok. exists k'. split; [by apply IH | done].
Qed.

Lemma mapM_lookup {A B} (f : A → result B) (l : list A) (k : list B) (i : nat) (x : A) :
  mapM f l = Ok k → l !! i = Some x → ∃ y, k !! i = Some y ∧ f x = Ok y.
Proof.
  intros H%mapM_Ok_Forall2 Hx.
  destruct (Forall2_lookup_l _ _ _ _ _ H Hx) as (y & ? & ?). eauto.
Qed.

Lemma mapM_total {A B} (f : A → result B) (l : list A) :
  Forall (λ x, ∃ y, f x = Ok y) l → ∃ k, mapM f l = Ok k.
Proof.
  induction 1 as [|x l [y Hy] _ [k Hk]]; [by exists []|].
  exists (y :: k). apply mapM_Ok_Forall2. constructor; [done|].
  by apply mapM_Ok_Forall2.
Qed.

(** ** Dicts *)

Lemma str_eqb_eq (a b : str) : str_eqb a b = true ↔ a = b.
Proof. unfold str_eqb. apply bool_decide_eq_true. Qed.

Lemma str_eqb_refl (a : str) : str_eqb a a = true.
Proof. by apply str_eqb_eq. Qed.

Lemma key_eqb_KStr (k : key) (s : str) : key_eqb k (KStr s) = true ↔ k = KStr s.
Proof.
  destruct k as [|b|z|f|t]; simpl; try (split; [done | by intros [=]]).
  rewrite str_eqb_eq. split; [by intros -> | by intros [= ->]].
Qed.

Lemma key_eqb_KStr_KStr (s t : str) : key_eqb (KStr s) (KStr t) = str_eqb s t.
Proof. done. Qed.

Section DictFacts.
Context {K V : Type} (eqb : K → K → bool).

Lemma assoc_setitem (k : K) (v : V) (d : list (K * V)) :
  eqb k k = true → assoc eqb k (setitem eqb k v d) = Some v.
Proof.
  intros Hk. induction d as [|[k' v'] d IH]; simpl; [by rewrite Hk|].
  destruct (eqb k' k) eqn:E; simpl; by rewrite E.
Qed.

(** Item by item, [d[k] = v] keeps the keys, and the values under the keys
    that do not match [k]. *)
Lemma setitem_Forall2 (k : K) (v : V) (d : list (K * V)) :
  is_Some (assoc eqb k d) →
  Forall2 (λ x y, y.1 = x.1 ∧ (eqb x.1 k = false → y.2 = x.2)) d (setitem eqb k v d).
Proof.
  induction d as [|[k' v'] d IH]; simpl; [by intros [? ?]|].
  destruct (eqb k' k) eqn:E; intros H.
  - constructor; [simpl; split; [done | congruence]|].
    apply Forall2_same_length_lookup_2; [done|]. by intros i x y -> [= ->].
  - constructor; [done | by apply IH].
Qed.
End DictFacts.

Lemma assoc_copy (d : list (str * json)) (k : str) :
  assoc key_eqb (KStr k) (node_copy d) = YJson <$> dict_get d k.
Proof.
  unfold dict_get, node_copy. induction d as [|[k' v] d IH]; [done|]. simpl.
  by destruct (str_eqb k' k).
Qed.

Lemma assoc_None_keys (d : list (key * yaml)) (k : str) :
  assoc key_eqb (KStr k) d = None ↔ KStr k ∉ d.*1.
Proof.
  induction d as [|[k' v] d IH]; simpl.
  - split; [intros _ []%elem_of_nil | done].
  - rewrite not_elem_of_cons, <- IH.
    destruct (key_eqb k' (KStr k)) eqn:E.
    + apply key_eqb_KStr in E as ->. split; [done | by intros [? _]].
    + split; [|by intros [_ ?]]. intros H. split; [|done].
      intros <-. by rewrite key_eqb_KStr_KStr, str_eqb_refl in E.
Qed.

(** ** The two loop bodies *)

Lemma py_get_Ok (o : json) (k : str) (dflt v : json) :
  py_get o k dflt = Ok v ↔ ∃ d, o = JDict d ∧ v = default dflt (dict_get d k).
Proof.
  destruct o; simpl; try (split; [done | by intros (? & [=] & ?)]).
  split; [intros [= <-]; eauto | by intros (? & [= <-] & ->)].
Qed.

Lemma as_literal_strip_Ok (text : json) (y : yaml) :
  as_literal_strip text = Ok y ↔ ∃ s, text = JStr s ∧ y = YLiteral (normalize s).
Proof.
  destruct text; simpl; try (split; [done | by intros (? & [=] & ?)]).
  split; [intros [= <-]; eauto | by intros (? & [= <-] & ->)].
Qed.

Lemma prompt_entry_Ok (p : json) (y : yaml) :
  prompt_entry p = Ok y ↔
  ∃ d text, p = JDict d ∧ default (JStr []) (dict_get d k_prompt) = JStr text ∧
    y = YDict [(KStr k_nodeId, YJson (default JNull (dict_get d k_nodeId)));
               (KStr k_prompt, YLiteral (normalize text))].
Proof.
  unfold prompt_entry. split.
  - intros H. inv_bind H. injection H as <-.
    apply py_get_Ok in Ha as (d & -> & ->).
    apply py_get_Ok in Ha0 as (d' & [= <-] & ->).
    apply as_literal_strip_Ok in Ha1 as (text & Ht & ->). eauto.
  - intros (d & text & -> & Ht & ->). simpl. by rewrite Ht.
Qed.

Lemma question_style_plain (s : str) :
  question_style (YJson (JStr s)) s = Ok (classify_question s).
Proof.
  unfold question_style, classify_question.
  destruct s as [|c s]; [done|]. simpl length.
  rewrite decide_False by done. simpl Nat.eqb.
  by destruct (is_short_plain_question _).
Qed.

Lemma node_entry_dict (d : list (str * json)) :
  node_entry (JDict d) =
  Ok (YDict match dict_get d k_question with
            | Some (JStr q) =>
                setitem key_eqb (KStr k_question) (classify_question q) (node_copy d)
            | _ => node_copy d
            end).
Proof.
  unfold node_entry. simpl. fold (node_copy d). rewrite assoc_copy.
  destruct (dict_get d k_question) as [[| | | |q| |]|]; try done.
  change (default (YJson JNull) (YJson <$> Some (JStr q))) with (YJson (JStr q)).
  cbn [isinstance_str]. by rewrite question_style_plain.
Qed.

(** ** The shape of every result of [transform] *)

Lemma transform_Ok (data : json) (out : yaml) :
  transform data = Ok out →
  ∃ g ps ns,
    input_graph data = JDict g ∧
    mapM prompt_entry (input_prompts data) = Ok ps ∧
    mapM node_entry (input_nodes data) = Ok ns ∧
    out = YDict [(KStr k_prompts, YList ps);
                 (KStr k_graph, YDict (start_item g ++ [(KStr k_nodes, YList ns)]))].
Proof.
  unfold transform. intros H. inv_bind H. injection H as <-.
  unfold input_prompts, input_nodes, input_graph.
  rewrite Ha. simpl. rewrite Ha0, Ha2.
  apply py_get_Ok in Ha5 as (g & -> & ->).
  exists g, a1, a7. simpl. rewrite Ha6.
  split; [done|]. split; [done|]. split; [done|].
  unfold start_item. simpl in Ha3, Ha4.
  injection Ha3 as <-.
  destruct (dict_get g k_startId) as [v|] eqn:Ev.
  - rewrite bool_decide_eq_true_2 in Ha4 by eauto.
    simpl in Ha4. by injection Ha4 as <-.
  - rewrite bool_decide_eq_false_2 in Ha4 by (by intros [? ?]).
    by injection Ha4 as <-.
Qed.

Lemma output_prompts_shape (ps : list yaml) (g : yaml) :
  output_prompts (YDict [(KStr k_prompts, YList ps); (KStr k_graph, g)]) = ps.
Proof. reflexivity. Qed.

Lemma output_nodes_shape (ps ns : list yaml) (g : list (str * json)) :
  output_nodes (YDict [(KStr k_prompts, YList ps);
                       (KStr k_graph, YDict (start_item g ++ [(KStr k_nodes, YList ns)]))])
  = ns.
Proof. unfold start_item. by destruct (dict_get g k_startId). Qed.

(** Every node of the input has its entry, at the same place, in the output. *)
Lemma transform_node (data : json) (out : yaml) (i : nat) (n : json) :
  transform data = Ok out → input_nodes data !! i = Some n →
  ∃ n', output_nodes out !! i = Some n' ∧ node_entry n = Ok n'.
Proof.
  intros (g & ps & ns & _ & _ & Hns & ->)%transform_Ok Hn.
  rewrite output_nodes_shape. by eapply mapM_lookup.
Qed.

Lemma transform_prompt (data : json) (out : yaml) (i : nat) (p : json) :
  transform data = Ok out → input_prompts data !! i = Some p →
  ∃ p', output_prompts out !! i = Some p' ∧ prompt_entry p = Ok p'.
Proof.
  intros (g & ps & ns & _ & Hps & _ & ->)%transform_Ok Hp.
  rewrite output_prompts_shape. by eapply mapM_lookup.
Qed.

(** ** The claims about the nodes *)

Lemma is_short_plain_question_iff (s : str) :
  is_short_plain_question s = true ↔ s = [] ∨ ((LF ∉ s) ∧ (length s ≤ 40)%nat).
Proof.
  destruct s as [|c s]; [split; auto|].
  unfold is_short_plain_question.
  rewrite andb_true_iff, negb_true_iff, contains_single_false, Nat.leb_le.
  split; [auto|]. by intros [?|?].
Qed.

(** The question of the entry made for a node that is a dict. *)
Lemma node_entry_question (d : list (str * json)) (n' : yaml) :
  node_entry (JDict d) = Ok n' →
  ydict_get n' k_question =
    match dict_get d k_question with
    | Some (JStr q) => Some (classify_question q)
    | Some v => Some (YJson v)
    | None => None
    end.
Proof.
  rewrite node_entry_dict. intros [= <-]. unfold ydict_get.
  destruct (dict_get d k_question) as [v|] eqn:Eq.
  - destruct v as [| | | |q| |];
      try (rewrite assoc_copy, Eq; reflexivity).
    by rewrite assoc_setitem by apply str_eqb_refl.
  - by rewrite assoc_copy, Eq.
Qed.

Lemma node_copy_items (d : list (str * json)) :
  Forall2 (λ x y, y.1 = KStr x.1 ∧ y.2 = YJson x.2) d (node_copy d).
Proof.
  unfold node_copy. induction d as [|[k v] d IH]; constructor; [done | apply IH].
Qed.

Lemma Forall2_diag {A} (R : A → A → Prop) (l : list A) :
  (∀ x, R x x) → Forall2 R l l.
Proof. intros HR. induction l; constructor; auto. Qed.

(** What [d[question] = v], or no assignment at all, leaves of the copy. *)
Lemma node_copy_frame (d : list (str * json)) (c : list (key * yaml)) :
  Forall2 (λ x y, y.1 = x.1 ∧ (key_eqb x.1 (KStr k_question) = false → y.2 = x.2))
    (node_copy d) c →
  Forall2 (λ x y, y.1 = KStr x.1 ∧ (x.1 ≠ k_question → y.2 = YJson x.2)) d c.
Proof.
  intros Hc. pose proof (node_copy_items d) as Hcopy.
  apply Forall2_same_length_lookup_2.
  { etrans; by eapply Forall2_length. }
  intros j x y Hx Hy.
  destruct (Forall2_lookup_l _ _ _ _ _ Hcopy Hx) as (z & Hz & Hk & Hv).
  destruct (Forall2_lookup_l _ _ _ _ _ Hc Hz) as (y' & Hy' & Hk' & Hv').
  assert (y' = y) as -> by congruence.
  split; [congruence|]. intros Hne. rewrite Hv', Hv; [done|].
  rewrite Hk, key_eqb_KStr_KStr. apply not_true_iff_false.
  by rewrite str_eqb_eq.
Qed.

(** C1. The question of a node, when it is a string [q], comes out as the
    empty plain string if [q] is empty, as [q] itself, plain, if [q] is short,
    and as the folded block of [normalize q] otherwise; a question that is
    absent or not a string (null included) is passed on as it is. *)
Theorem question_classification
    (data : json) (out : yaml) (i : nat) (d : list (str * json)) :
  transform data = Ok out →
  input_nodes data !! i = Some (JDict d) →
  ∃ n', output_nodes out !! i = Some n' ∧
    ydict_get n' k_question =
      match dict_get d k_question with
      | Some (JStr q) =>
          Some (if decide (length q = 0%nat) then YJson (JStr [])
                else if is_short_plain_question q then YJson (JStr q)
                else YFolded (normalize q))
      | Some v => Some (YJson v)
      | None => None
      end.
Proof.
  intros Hout Hn.
  destruct (transform_node _ _ _ _ Hout Hn) as (n' & Hn' & He).
  exists n'. split; [done|]. by apply node_entry_question.
Qed.

(** C6. The output node has the keys of the input node, in their order, and
    under every key other than [question] the value of the input node; a
    node without a question comes out without one. *)
Theorem node_frame
    (data : json) (out : yaml) (i : nat) (d : list (str * json)) :
  transform data = Ok out →
  input_nodes data !! i = Some (JDict d) →
  ∃ d', output_nodes out !! i = Some (YDict d') ∧
    Forall2 (λ x y, y.1 = KStr x.1 ∧ (x.1 ≠ k_question → y.2 = YJson x.2)) d d' ∧
    (dict_get d k_question = None → KStr k_question ∉ d'.*1).
Proof.
  intros Hout Hn.
  destruct (transform_node _ _ _ _ Hout Hn) as (n' & Hn' & He).
  rewrite node_entry_dict in He. injection He as <-.
  eexists. split; [done|].
  destruct (dict_get d k_question) as [v|] eqn:Eq.
  - split; [|done].
    assert (Hq : is_Some (assoc key_eqb (KStr k_question) (node_copy d))).
    { rewrite assoc_copy, Eq. by eexists. }
    destruct v; try (by apply node_copy_frame, Forall2_diag).
    by apply node_copy_frame, setitem_Forall2.
  - split; [by apply node_copy_frame, Forall2_diag|].
    intros _. apply assoc_None_keys. by rewrite assoc_copy, Eq.
Qed.

(** C10. A question of at most 40 characters with a CR and no LF comes out
    as the same plain string: the CR is still there, although [normalize]
    would have replaced it. *)
Theorem short_question_keeps_CR
    (data : json) (out : yaml) (i : nat) (d : list (str * json)) (q : str) :
  transform data = Ok out →
  input_nodes data !! i = Some (JDict d) →
  dict_get d k_question = Some (JStr q) →
  (length q ≤ 40)%nat → CR ∈ q → LF ∉ q →
  ∃ n', output_nodes out !! i = Some n' ∧
    ydict_get n' k_question = Some (YJson (JStr q)) ∧
    normalize q ≠ q.
Proof.
  intros Hout Hn Hq Hlen Hcr Hlf.
  destruct (transform_node _ _ _ _ Hout Hn) as (n' & Hn' & He).
  exists n'. split; [done|]. split.
  - rewrite (node_entry_question _ _ He), Hq. f_equal.
    unfold classify_question.
    destruct q as [|c q]; [by apply elem_of_nil in Hcr|].
    rewrite decide_False by done.
    by rewrite (proj2 (is_short_plain_question_iff (c :: q))) by auto.
  - intros E. apply (normalize_no_CR q). by rewrite E.
Qed.

(** C3. The short-question test holds exactly of the empty string and of
    the strings of at most 40 characters without a line feed; so 40
    characters without a line feed stay plain, 41 characters are folded, and
    a line feed makes a question not short, whatever its length. *)
Theorem is_short_plain_question_spec (s : str) :
  (is_short_plain_question s = true ↔ s = [] ∨ ((LF ∉ s) ∧ (length s ≤ 40)%nat)) ∧
  (length s = 40%nat → LF ∉ s →
     question_style (YJson (JStr s)) s = Ok (YJson (JStr s))) ∧
  (length s = 41%nat →
     question_style (YJson (JStr s)) s = Ok (YFolded (normalize s))) ∧
  (LF ∈ s →
     is_short_plain_question s = false ∧
     question_style (YJson (JStr s)) s = Ok (YFolded (normalize s))).
Proof.
  pose proof (is_short_plain_question_iff s) as Hiff.
  split; [done|]. rewrite question_style_plain. unfold classify_question.
  split; [|split].
  - intros Hl Hlf. rewrite decide_False by lia.
    by rewrite (proj2 Hiff) by (right; split; [done | lia]).
  - intros Hl. rewrite decide_False by lia.
    destruct (is_short_plain_question s); [|done].
    destruct (proj1 Hiff eq_refl) as [->|[_ ?]]; [done | lia].
  - intros Hlf.
    assert (is_short_plain_question s = false) as ->.
    { apply not_true_iff_false. intros [->|[? _]]%Hiff; [|done].
      by apply elem_of_nil in Hlf. }
    split; [done|]. destruct s; [by apply elem_of_nil in Hlf|].
    by rewrite decide_False.
Qed.

(** ** The claims about the prompts *)

(** C4. Every prompt of the input comes out as the mapping of [nodeId], the
    value of the input (null when the key is absent), and [prompt], the
    literal block of the normalized prompt text (of the empty string when
    the key is absent). *)
Theorem prompt_pass (data : json) (out : yaml) (i : nat) (p : json) :
  transform data = Ok out →
  input_prompts data !! i = Some p →
  ∃ d text,
    p = JDict d ∧
    default (JStr []) (dict_get d k_prompt) = JStr text ∧
    output_prompts out !! i =
      Some (YDict [(KStr k_nodeId, YJson (default JNull (dict_get d k_nodeId)));
                   (KStr k_prompt, YLiteral (normalize text))]).
Proof.
  intros Hout Hp.
  destruct (transform_prompt _ _ _ _ Hout Hp) as (p' & Hp' & He).
  apply prompt_entry_Ok in He as (d & text & -> & Ht & ->). eauto.
Qed.

(** C9. The mapping made for a prompt has the two keys [nodeId] and
    [prompt], in this order, and no other: whatever else the input element
    holds is dropped. *)
Theorem prompt_keys (data : json) (out : yaml) (i : nat) (p : json) :
  transform data = Ok out →
  input_prompts data !! i = Some p →
  ∃ d', output_prompts out !! i = Some (YDict d') ∧
    d'.*1 = [KStr k_nodeId; KStr k_prompt] ∧
    ∀ k, k ≠ k_nodeId → k ≠ k_prompt → ydict_get (YDict d') k = None.
Proof.
  intros Hout Hp.
  destruct (transform_prompt _ _ _ _ Hout Hp) as (p' & Hp' & He).
  apply prompt_entry_Ok in He as (d & text & -> & Ht & ->).
  eexists. split; [done|]. split; [done|].
  intros k Hn Hq. apply assoc_None_keys. cbn.
  rewrite !not_elem_of_cons. by repeat split; [intros [= ->]..|intros ?%elem_of_nil].
Qed.

(** ** When [transform] returns *)

Lemma prompt_entry_total (p : json) :
  prompt_shaped p = true → ∃ y, prompt_entry p = Ok y.
Proof.
  destruct p as [| | | | | |d]; try done. simpl. intros H.
  assert (∃ text, default (JStr []) (dict_get d k_prompt) = JStr text) as [text Ht].
  { destruct (dict_get d k_prompt) as [[| | | |s| |]|]; try done; by eexists. }
  eexists. apply prompt_entry_Ok. eauto.
Qed.

Lemma node_entry_total (n : json) :
  node_shaped n = true → ∃ y, node_entry n = Ok y.
Proof.
  destruct n as [| | | | | |d]; try done. intros _.
  rewrite node_entry_dict. by eexists.
Qed.

Lemma list_shaped_iter (item : json → bool) (field : option json) :
  list_shaped item field = true →
  ∃ l, py_iter (default (JList []) field) = Ok l ∧ Forall (λ x, item x = true) l.
Proof.
  destruct field as [[| | | | |l|]|]; try done; simpl.
  - intros H. exists l. split; [done|].
    apply Forall_forall. intros x Hx%list_elem_of_In.
    by apply (proj1 (forallb_forall _ _) H).
  - intros _. by exists [].
Qed.

Lemma transform_run (d g : list (str * json)) (ps ns : list json) (ps' ns' : list yaml) :
  py_iter (default (JList []) (dict_get d k_prompts)) = Ok ps →
  mapM prompt_entry ps = Ok ps' →
  default (JDict []) (dict_get d k_graph) = JDict g →
  py_iter (default (JList []) (dict_get g k_nodes)) = Ok ns →
  mapM node_entry ns = Ok ns' →
  transform (JDict d) =
  Ok (YDict [(KStr k_prompts, YList ps');
             (KStr k_graph, YDict (start_item g ++ [(KStr k_nodes, YList ns')]))]).
Proof.
  intros Hps Hps' Hg Hns Hns'.
  unfold transform. cbn [py_get mbind result_bind].
  rewrite Hps. cbn [mbind result_bind]. rewrite Hps'. cbn [mbind result_bind].
  rewrite Hg. cbn [py_in py_get py_getitem mbind result_bind].
  rewrite Hns. cbn [mbind result_bind]. unfold start_item.
  destruct (dict_get g k_startId) as [v|] eqn:Ev.
  - rewrite bool_decide_eq_true_2 by eauto.
    cbn [mbind result_bind]. by rewrite Hns'.
  - rewrite bool_decide_eq_false_2 by (by intros [? ?]).
    cbn [mbind result_bind]. by rewrite Hns'.
Qed.

(** The result on a document of the documented shape: the entries of the
    prompts and of the nodes there are, none for a field that is absent. *)
Lemma transform_shaped_result (d : list (str * json)) :
  document_shaped (JDict d) = true →
  ∃ g ps' ns',
    default (JDict []) (dict_get d k_graph) = JDict g ∧
    transform (JDict d) =
      Ok (YDict [(KStr k_prompts, YList ps');
                 (KStr k_graph, YDict (start_item g ++ [(KStr k_nodes, YList ns')]))]) ∧
    Forall2 (λ p y, prompt_entry p = Ok y) (input_prompts (JDict d)) ps' ∧
    Forall2 (λ n y, node_entry n = Ok y) (input_nodes (JDict d)) ns' ∧
    (dict_get d k_prompts = None → ps' = []) ∧
    (dict_get g k_nodes = None → ns' = []) ∧
    (dict_get d k_graph = None → g = []).
Proof.
  simpl. intros [Hp Hg]%andb_true_iff.
  apply list_shaped_iter in Hp as (ps & Hps & Hps').
  destruct (mapM_total prompt_entry ps) as [ps' Hps''].
  { eapply Forall_impl; [done|]. apply prompt_entry_total. }
  assert (∃ g, default (JDict []) (dict_get d k_graph) = JDict g ∧
               list_shaped node_shaped (dict_get g k_nodes) = true) as (g & Hg' & Hn).
  { destruct (dict_get d k_graph) as [[| | | | | |g]|]; try done; by eexists. }
  apply list_shaped_iter in Hn as (ns & Hns & Hns').
  destruct (mapM_total node_entry ns) as [ns' Hns''].
  { eapply Forall_impl; [done|]. apply node_entry_total. }
  exists g, ps', ns'. split; [done|].
  split; [by eapply transform_run|].
  assert (input_prompts (JDict d) = ps) as ->.
  { unfold input_prompts. cbn [py_get mbind result_bind]. by rewrite Hps. }
  assert (input_nodes (JDict d) = ns) as ->.
  { unfold input_nodes, input_graph. cbn [py_get]. rewrite Hg'.
    cbn [py_get mbind result_bind]. by rewrite Hns. }
  split; [by apply mapM_Ok_Forall2|]. split; [by apply mapM_Ok_Forall2|].
  split; [|split].
  - intros E. rewrite E in Hps. injection Hps as <-. by injection Hps'' as <-.
  - intros E. rewrite E in Hns. injection Hns as <-. by injection Hns'' as <-.
  - intros E. rewrite E in Hg'. by injection Hg' as <-.
Qed.

Lemma not_iterable_iter (v : json) : not_iterable v = true → py_iter v = Raise TypeError.
Proof. by destruct v. Qed.

(** ** The claims about the document *)

(** C7. Every output is the mapping of [prompts] and [graph], in this order;
    its graph holds [startId], with the value of the input, exactly when the
    graph of the input has the key, and then [nodes], always.  On a document
    of the documented shape there is such an output, with or without a
    [startId] in the input. *)
Theorem graph_assembly (data : json) :
  (∀ out, transform data = Ok out →
     ∃ g ps ns,
       input_graph data = JDict g ∧
       out = YDict [(KStr k_prompts, YList ps);
                    (KStr k_graph,
                     YDict (match dict_get g k_startId with
                            | Some v => [(KStr k_startId, YJson v)]
                            | None => []
                            end ++ [(KStr k_nodes, YList ns)]))]) ∧
  (document_shaped data = true →
     ∃ g ps ns,
       input_graph data = JDict g ∧
       transform data =
         Ok (YDict [(KStr k_prompts, YList ps);
                    (KStr k_graph,
                     YDict (match dict_get g k_startId with
                            | Some v => [(KStr k_startId, YJson v)]
                            | None => []
                            end ++ [(KStr k_nodes, YList ns)]))])).
Proof.
  split.
  - intros out (g & ps & ns & Hg & _ & _ & ->)%transform_Ok. by exists g, ps, ns.
  - destruct data as [| | | | | |d]; try done.
    intros (g & ps & ns & Hg & Ht & _)%transform_shaped_result.
    exists g, ps, ns. split; [|done].
    unfold input_graph. cbn [py_get]. by rewrite Hg.
Qed.

(** C5, as the code has it.  [transform] returns on every mapping of the
    documented shape: [prompts], when present, a list of mappings whose
    [prompt], when present, is a string; [graph], when present, a mapping;
    its [nodes], when present, a list of mappings.  The output holds the
    entries of the prompts and of the nodes of the input; an absent
    [prompts] or [nodes] counts as the empty list, and gives the empty list,
    an absent [graph] counts as the empty mapping.  A value that is there
    and cannot be iterated (null, a bool, a number) is not taken for the
    empty list: the loop over it raises a type error. *)
Theorem transform_total_on_shape :
  (∀ data, document_shaped data = true →
     ∃ d g ps' ns',
       data = JDict d ∧
       default (JDict []) (dict_get d k_graph) = JDict g ∧
       transform data =
         Ok (YDict [(KStr k_prompts, YList ps');
                    (KStr k_graph,
                     YDict (match dict_get g k_startId with
                            | Some v => [(KStr k_startId, YJson v)]
                            | None => []
                            end ++ [(KStr k_nodes, YList ns')]))]) ∧
       Forall2 (λ p y, prompt_entry p = Ok y) (input_prompts data) ps' ∧
       Forall2 (λ n y, node_entry n = Ok y) (input_nodes data) ns' ∧
       (dict_get d k_prompts = None → ps' = []) ∧
       (dict_get g k_nodes = None → ns' = []) ∧
       (dict_get d k_graph = None → g = [])) ∧
  (∀ d v, dict_get d k_prompts = Some v → not_iterable v = true →
     transform (JDict d) = Raise TypeError) ∧
  (∀ d g v, list_shaped prompt_shaped (dict_get d k_prompts) = true →
     dict_get d k_graph = Some (JDict g) →
     dict_get g k_nodes = Some v → not_iterable v = true →
     transform (JDict d) = Raise TypeError).
Proof.
  split; [|split].
  - intros [| | | | | |d]; try done.
    intros (g & ps' & ns' & H)%transform_shaped_result. by exists d, g, ps', ns'.
  - intros d v Hv Hni. unfold transform. cbn [py_get mbind result_bind].
    rewrite Hv. cbn [default from_option id].
    by rewrite (not_iterable_iter v Hni).
  - intros d g v Hp Hg Hv Hni.
    apply list_shaped_iter in Hp as (ps & Hps & Hps').
    destruct (mapM_total prompt_entry ps) as [ps' Hps''].
    { eapply Forall_impl; [done|]. apply prompt_entry_total. }
    unfold transform. cbn [py_get mbind result_bind].
    rewrite Hps. cbn [mbind result_bind]. rewrite Hps''. cbn [mbind result_bind].
    rewrite Hg. cbn [default from_option id py_in py_get py_getitem mbind result_bind].
    rewrite Hv. cbn [default from_option id]. rewrite (not_iterable_iter v Hni).
    by destruct (dict_get g k_startId).
Qed.

(** C5, as the claim has it, fails: a mapping whose [prompts] is a number. *)
Lemma transform_not_total :
  transform (JDict [(k_prompts, JInt 5)]) = Raise TypeError.
Proof. reflexivity. Qed.

(** ** The driver *)

Section DriverFacts.
Variable exn_str : exn → str.


End DriverFacts.

(** ** The survey, run through the claims *)

Example transform_survey : transform survey = Ok survey_out.
Proof. reflexivity. Qed.

Example normalize_hello_world : normalize hello_world = lit "Hello" ++ [LF] ++ lit "World".
Proof. reflexivity. Qed.

Example normalize_CR_CRLF : normalize [CR; CR; LF; 65; LF; CR] = [LF; LF; 65].
Proof. reflexivity. Qed.

Example transform_empty :
  transform (JDict []) =
  Ok (YDict [(KStr k_prompts, YList []); (KStr k_graph, YDict [(KStr k_nodes, YList [])])]).
Proof. reflexivity. Qed.

Example transform_null_startId :
  transform (JDict [(k_graph, JDict [(k_startId, JNull)])]) =
  Ok (YDict [(KStr k_prompts, YList []);
             (KStr k_graph, YDict [(KStr k_startId, YJson JNull); (KStr k_nodes, YList [])])]).
Proof. reflexivity. Qed.

Example transform_list : transform (JList []) = Raise AttributeError.
Proof. reflexivity. Qed.

Example transform_prompts_string :
  transform (JDict [(k_prompts, JStr (lit "hi"))]) = Raise AttributeError.
Proof. reflexivity. Qed.

Example transform_prompt_null :
  transform (JDict [(k_prompts, JList [JDict [(k_prompt, JNull)]])]) = Raise AttributeError.
Proof. reflexivity. Qed.

(** [dict(n)] takes a node that is a list of pairs; [1] and [True] are one key. *)
Example node_entry_pairs :
  node_entry (JList [JList [JInt 1; JStr (lit "a")]; JList [JBool true; JStr (lit "b")];
                     JStr (lit "xy")]) =
  Ok (YDict [(KInt 1, YJson (JStr (lit "b"))); (KStr (lit "x"), YJson (JStr (lit "y")))]).
Proof. reflexivity. Qed.

Lemma question_classification_witness :
  transform survey = Ok survey_out ∧
  input_nodes survey !! 1%nat = Some (JDict node2) ∧
  ∃ n', output_nodes survey_out !! 1%nat = Some n' ∧
    ydict_get n' k_question = Some (YFolded (normalize long_question)).
Proof.
  split; [reflexivity|]. split; [reflexivity|].
  exact (question_classification survey survey_out 1 node2 eq_refl eq_refl).
Defined.

Lemma node_frame_witness :
  transform survey = Ok survey_out ∧
  input_nodes survey !! 3%nat = Some (JDict node4) ∧
  ∃ d', output_nodes survey_out !! 3%nat = Some (YDict d') ∧
    Forall2 (λ x y, y.1 = KStr x.1 ∧ (x.1 ≠ k_question → y.2 = YJson x.2)) node4 d' ∧
    (dict_get node4 k_question = None → KStr k_question ∉ d'.*1).
Proof.
  split; [reflexivity|]. split; [reflexivity|].
  exact (node_frame survey survey_out 3 node4 eq_refl eq_refl).
Defined.

Lemma short_question_keeps_CR_witness :
  (length ready_question ≤ 40)%nat ∧ (CR ∈ ready_question) ∧ (LF ∉ ready_question) ∧
  ∃ n', output_nodes survey_out !! 2%nat = Some n' ∧
    ydict_get n' k_question = Some (YJson (JStr ready_question)) ∧
    normalize ready_question ≠ ready_question.
Proof.
  assert (Hlen : (length ready_question ≤ 40)%nat) by (vm_compute; lia).
  assert (Hcr : CR ∈ ready_question) by (apply contains_single; reflexivity).
  assert (Hlf : LF ∉ ready_question) by (apply contains_single_false; reflexivity).
  split; [exact Hlen|]. split; [exact Hcr|]. split; [exact Hlf|].
  exact (short_question_keeps_CR survey survey_out 2 node3 ready_question
           eq_refl eq_refl eq_refl Hlen Hcr Hlf).
Defined.

Lemma is_short_plain_question_spec_witness :
  question_style (YJson (JStr (repeat 97 40))) (repeat 97 40)
    = Ok (YJson (JStr (repeat 97 40))) ∧
  question_style (YJson (JStr (repeat 97 41))) (repeat 97 41)
    = Ok (YFolded (normalize (repeat 97 41))) ∧
  is_short_plain_question [97; LF; 98] = false.
Proof.
  split; [|split].
  - exact (proj1 (proj2 (is_short_plain_question_spec (repeat 97 40))) eq_refl
             (proj1 (contains_single_false LF (repeat 97 40)) eq_refl)).
  - exact (proj1 (proj2 (proj2 (is_short_plain_question_spec (repeat 97 41)))) eq_refl).
  - exact (proj1 (proj2 (proj2 (proj2 (is_short_plain_question_spec [97; LF; 98])))
             (proj1 (contains_single LF [97; LF; 98]) eq_refl))).
Defined.

Lemma prompt_pass_witness :
  transform survey = Ok survey_out ∧
  input_prompts survey !! 0%nat = Some (JDict prompt1) ∧
  ∃ d text,
    JDict prompt1 = JDict d ∧
    default (JStr []) (dict_get d k_prompt) = JStr text ∧
    output_prompts survey_out !! 0%nat =
      Some (YDict [(KStr k_nodeId, YJson (default JNull (dict_get d k_nodeId)));
                   (KStr k_prompt, YLiteral (normalize text))]).
Proof.
  split; [reflexivity|]. split; [reflexivity|].
  exact (prompt_pass survey survey_out 0 (JDict prompt1) eq_refl eq_refl).
Defined.

Lemma prompt_keys_witness :
  is_Some (dict_get prompt1 (lit "lang")) ∧
  ∃ d', output_prompts survey_out !! 0%nat = Some (YDict d') ∧
    d'.*1 = [KStr k_nodeId; KStr k_prompt] ∧
    ∀ k, k ≠ k_nodeId → k ≠ k_prompt → ydict_get (YDict d') k = None.
Proof.
  split; [by eexists|].
  exact (prompt_keys survey survey_out 0 (JDict prompt1) eq_refl eq_refl).
Defined.

Lemma graph_assembly_witness :
  (∃ g ps ns,
     input_graph survey = JDict g ∧
     survey_out = YDict [(KStr k_prompts, YList ps);
                         (KStr k_graph,
                          YDict (match dict_get g k_startId with
                                 | Some v => [(KStr k_startId, YJson v)]
                                 | None => []
                                 end ++ [(KStr k_nodes, YList ns)]))]) ∧
  document_shaped survey_hi = true ∧
  dict_get [(k_nodes, JList [JDict node_hi])] k_startId = None ∧
  (∃ g ps ns,
     input_graph survey_hi = JDict g ∧
     transform survey_hi =
       Ok (YDict [(KStr k_prompts, YList ps);
                  (KStr k_graph,
                   YDict (match dict_get g k_startId with
                          | Some v => [(KStr k_startId, YJson v)]
                          | None => []
                          end ++ [(KStr k_nodes, YList ns)]))])) ∧
  (∃ g ps ns,
     input_graph (JDict []) = JDict g ∧
     transform (JDict []) =
       Ok (YDict [(KStr k_prompts, YList ps);
                  (KStr k_graph,
                   YDict (match dict_get g k_startId with
                          | Some v => [(KStr k_startId, YJson v)]
                          | None => []
                          end ++ [(KStr k_nodes, YList ns)]))])).
Proof.
  split; [exact (proj1 (graph_assembly survey) survey_out eq_refl)|].
  split; [reflexivity|]. split; [reflexivity|]. split.
  - exact (proj2 (graph_assembly survey_hi) eq_refl).
  - exact (proj2 (graph_assembly (JDict [])) eq_refl).
Defined.

Lemma transform_total_on_shape_witness :
  document_shaped survey = true ∧
  (∃ d g ps' ns',
     survey = JDict d ∧
     default (JDict []) (dict_get d k_graph) = JDict g ∧
     transform survey =
       Ok (YDict [(KStr k_prompts, YList ps');
                  (KStr k_graph,
                   YDict (match dict_get g k_startId with
                          | Some v => [(KStr k_startId, YJson v)]
                          | None => []
                          end ++ [(KStr k_nodes, YList ns')]))]) ∧
     Forall2 (λ p y, prompt_entry p = Ok y) (input_prompts survey) ps' ∧
     Forall2 (λ n y, node_entry n = Ok y) (input_nodes survey) ns' ∧
     (dict_get d k_prompts = None → ps' = []) ∧
     (dict_get g k_nodes = None → ns' = []) ∧
     (dict_get d k_graph = None → g = [])) ∧
  (∃ d g ps' ns',
     JDict [] = JDict d ∧
     default (JDict []) (dict_get d k_graph) = JDict g ∧
     transform (JDict []) =
       Ok (YDict [(KStr k_prompts, YList ps');
                  (KStr k_graph,
                   YDict (match dict_get g k_startId with
                          | Some v => [(KStr k_startId, YJson v)]
                          | None => []
                          end ++ [(KStr k_nodes, YList ns')]))]) ∧
     Forall2 (λ p y, prompt_entry p = Ok y) (input_prompts (JDict [])) ps' ∧
     Forall2 (λ n y, node_entry n = Ok y) (input_nodes (JDict [])) ns' ∧
     (dict_get d k_prompts = None → ps' = []) ∧
     (dict_get g k_nodes = None → ns' = []) ∧
     (dict_get d k_graph = None → g = [])) ∧
  transform (JDict [(k_prompts, JNull)]) = Raise TypeError ∧
  transform (JDict [(k_prompts, JList [JDict prompt1]);
                    (k_graph, JDict [(k_nodes, JBool true)])]) = Raise TypeError.
Proof.
  split; [reflexivity|]. split; [|split; [|split]].
  - exact (proj1 transform_total_on_shape survey eq_refl).
  - exact (proj1 transform_total_on_shape (JDict []) eq_refl).
  - exact (proj1 (proj2 transform_total_on_shape)
             [(k_prompts, JNull)] JNull eq_refl eq_refl).
  - exact (proj2 (proj2 transform_total_on_shape)
             [(k_prompts, JList [JDict prompt1]); (k_graph, JDict [(k_nodes, JBool true)])]
             [(k_nodes, JBool true)] (JBool true) eq_refl eq_refl eq_refl eq_refl).
Defined.


(** * More of the script *)

(** ** Line endings, case by case *)

Lemma line_endings_nil : line_endings_to_LF [] = [].
Proof. done. Qed.

Lemma line_endings_other (c : N) (r : str) :
  c ≠ CR → line_endings_to_LF (c :: r) = c :: line_endings_to_LF r.
Proof. intros H. cbn [line_endings_to_LF]. by rewrite (proj2 (N.eqb_neq c CR) H). Qed.

Lemma line_endings_CR_end : line_endings_to_LF [CR] = [LF].
Proof. done. Qed.

Lemma line_endings_CRLF (r : str) :
  line_endings_to_LF (CR :: LF :: r) = LF :: line_endings_to_LF r.
Proof. done. Qed.

Lemma line_endings_CR (c : N) (r : str) :
  c ≠ LF → line_endings_to_LF (CR :: c :: r) = LF :: line_endings_to_LF (c :: r).
Proof.
  intros H. cbn [line_endings_to_LF]. rewrite N.eqb_refl.
  by rewrite (proj2 (N.eqb_neq c LF) H).
Qed.

(** Induction along the cases of [line_endings_to_LF]. *)
Lemma line_endings_ind (P : str → Prop) :
  P [] →
  (∀ c r, c ≠ CR → P r → P (c :: r)) →
  P [CR] →
  (∀ r, P r → P (CR :: LF :: r)) →
  (∀ c r, c ≠ LF → P (c :: r) → P (CR :: c :: r)) →
  ∀ s, P s.
Proof.
  intros Hnil Hother Hend Hcrlf Hcr s.
  assert (H : ∀ n (s : str), (length s ≤ n)%nat → P s).
  { intros n. induction n as [|n IH]; intros [|c r] Hlen; try done.
    { simpl in Hlen. lia. }
    simpl in Hlen. destruct (decide (c = CR)) as [->|Hc].
    - destruct r as [|c' r']; [done|]. simpl in Hlen.
      destruct (decide (c' = LF)) as [->|Hc'].
      + apply Hcrlf, IH. lia.
      + apply Hcr; [done|]. apply IH. simpl. lia.
    - apply Hother; [done|]. apply IH. lia. }
  by apply (H (length s)).
Qed.

Lemma normalize_line_endings (t : str) :
  normalize t = rstrip [LF] (line_endings_to_LF t).
Proof. unfold normalize. by rewrite replace_line_endings. Qed.

Lemma line_endings_breaks (u : str) :
  Forall line_break u → ∃ n, line_endings_to_LF u = replicate n LF.
Proof.
  induction u as [|c r Hc IH| |r IH|c r Hc IH] using line_endings_ind.
  - by exists 0%nat.
  - intros [[?| ->] [n Hn]%IH]%Forall_cons; [done|].
    exists (S n). by rewrite line_endings_other, Hn.
  - by exists 1%nat.
  - intros [_ [_ [n Hn]%IH]%Forall_cons]%Forall_cons.
    exists (S n). by rewrite line_endings_CRLF, Hn.
  - intros [_ [n Hn]%IH]%Forall_cons.
    exists (S n). by rewrite line_endings_CR, Hn.
Qed.

(** Line breaks added at the end add line feeds at the end. *)
Lemma line_endings_app_breaks (t u : str) :
  Forall line_break u →
  ∃ n, line_endings_to_LF (t ++ u) = line_endings_to_LF t ++ replicate n LF.
Proof.
  intros Hu.
  induction t as [|c r Hc IH| |r IH|c r Hc IH] using line_endings_ind.
  - by apply line_endings_breaks.
  - destruct IH as [n Hn]. exists n.
    cbn [app]. by rewrite !line_endings_other, Hn.
  - destruct u as [|c u]; [by exists 0%nat|]. cbn [app].
    destruct (decide (c = LF)) as [->|Hc].
    + apply Forall_cons in Hu as [_ [n Hn]%line_endings_breaks].
      exists n. by rewrite line_endings_CRLF, Hn.
    + destruct (line_endings_breaks _ Hu) as [n Hn].
      exists n. by rewrite line_endings_CR, Hn.
  - destruct IH as [n Hn]. exists n.
    cbn [app]. by rewrite !line_endings_CRLF, Hn.
  - destruct IH as [n Hn]. exists n.
    cbn [app] in *. by rewrite !line_endings_CR, Hn.
Qed.

Lemma line_endings_all_LF (t : str) :
  Forall (λ c, c = LF) (line_endings_to_LF t) → Forall line_break t.
Proof.
  induction t as [|c r Hc IH| |r IH|c r Hc IH] using line_endings_ind.
  - done.
  - rewrite line_endings_other by done.
    intros [-> ?%IH]%Forall_cons. constructor; [by right | done].
  - intros _. constructor; [by left | done].
  - rewrite line_endings_CRLF. intros [_ ?%IH]%Forall_cons.
    constructor; [by left|]. constructor; [by right | done].
  - rewrite line_endings_CR by done. intros [_ ?%IH]%Forall_cons.
    constructor; [by left | done].
Qed.

Lemma line_endings_length (t : str) :
  (length (line_endings_to_LF t) ≤ length t)%nat.
Proof.
  induction t as [|c r Hc IH| |r IH|c r Hc IH] using line_endings_ind.
  - done.
  - rewrite line_endings_other by done. simpl. lia.
  - done.
  - rewrite line_endings_CRLF. simpl. lia.
  - rewrite line_endings_CR by done. simpl in *. lia.
Qed.

(** ** [rstrip] *)

Lemma rstrip_replicate (s : str) (n : nat) :
  rstrip [LF] (s ++ replicate n LF) = rstrip [LF] s.
Proof.
  induction n as [|n IH]; [by rewrite app_nil_r|].
  by rewrite replicate_S_end, app_assoc, rstrip_snoc.
Qed.

Lemma rstrip_fixed (chars s : str) :
  (∀ c, last s = Some c → c ∉ chars) → rstrip chars s = s.
Proof.
  induction s as [|c s _] using rev_ind; [done|].
  intros H. rewrite rstrip_snoc.
  destruct (existsb (N.eqb c) chars) eqn:E; [|done].
  apply existsb_exists in E as (x & Hx%list_elem_of_In & <-%N.eqb_eq).
  destruct (H c); [apply last_snoc | done].
Qed.

Lemma rstrip_nil (chars s : str) :
  rstrip chars s = [] → Forall (λ c, c ∈ chars) s.
Proof.
  induction s as [|c s IH]; [done|]. cbn [rstrip].
  destruct (rstrip chars s); [|done].
  destruct (existsb (N.eqb c) chars) eqn:E; [|done]. intros _.
  apply existsb_exists in E as (x & Hx%list_elem_of_In & ->%N.eqb_eq).
  constructor; [done | by apply IH].
Qed.

Lemma rstrip_length (chars s : str) : (length (rstrip chars s) ≤ length s)%nat.
Proof.
  induction s as [|c s IH]; [done|]. cbn [rstrip].
  destruct (rstrip chars s); [|simpl in *; lia].
  destruct (existsb _ _); simpl; lia.
Qed.

(** ** More on [normalize] *)

Lemma normalize_fixed (t : str) :
  CR ∉ t → last t ≠ Some LF → normalize t = t.
Proof.
  intros Hcr Hlf. unfold normalize.
  rewrite (replace_absent CR [LF] [LF]) by done.
  rewrite (replace_absent CR [] [LF]) by done.
  apply rstrip_fixed. by intros c Hc ->%list_elem_of_singleton.
Qed.

Lemma normalize_app_breaks (t u : str) :
  Forall line_break u → normalize (t ++ u) = normalize t.
Proof.
  intros [n Hn]%(line_endings_app_breaks t).
  by rewrite !normalize_line_endings, Hn, rstrip_replicate.
Qed.

(** X1. [normalize] leaves a text as it is exactly when the text has no CR
    and does not end in LF. *)
Theorem normalize_fixed_iff (t : str) :
  normalize t = t ↔ (CR ∉ t) ∧ (last t ≠ Some LF).
Proof.
  split; [|by intros [? ?]; apply normalize_fixed].
  intros E. split.
  - rewrite <- E. apply normalize_no_CR.
  - rewrite <- E. unfold normalize.
    intros H%rstrip_last. apply H. by left.
Qed.

(** X2. Line breaks at the end of a text, of either kind and in any number,
    do not show in its normalization. *)
Theorem normalize_trailing_breaks (t u : str) :
  Forall line_break u → normalize (t ++ u) = normalize t.
Proof.
  intros Hu. destruct (line_endings_app_breaks t u Hu) as [n Hn].
  rewrite !normalize_line_endings, Hn. apply rstrip_replicate.
Qed.

(** X3. The normalization of a text is empty exactly when the text is made
    of line breaks only (the empty text included). *)
Theorem normalize_empty_iff (t : str) :
  normalize t = [] ↔ Forall line_break t.
Proof.
  split.
  - rewrite normalize_line_endings. intros H%rstrip_nil.
    apply line_endings_all_LF. eapply Forall_impl; [done|].
    by intros c ->%list_elem_of_singleton.
  - intros H. exact (normalize_app_breaks [] t H).
Qed.

(** X4. [normalize] never makes a text longer. *)
Theorem normalize_length (t : str) : (length (normalize t) ≤ length t)%nat.
Proof.
  rewrite normalize_line_endings.
  etrans; [apply rstrip_length | apply line_endings_length].
Qed.

(** ** More on the questions *)

Lemma classify_question_text (q : str) :
  CR ∉ q → isinstance_str (classify_question q) = Some (normalize q).
Proof.
  intros Hcr. unfold classify_question.
  destruct (decide (length q = 0%nat)) as [Hq|Hq].
  { by apply nil_length_inv in Hq as ->. }
  destruct (is_short_plain_question q) eqn:E; [|done].
  apply is_short_plain_question_iff in E as [->|[Hlf _]]; [done|].
  cbn [isinstance_str]. f_equal. symmetry. apply normalize_fixed; [done|].
  intros (l & ->)%last_Some. apply Hlf. rewrite elem_of_app. right. by left.
Qed.

(** X5. Whatever its style, the question made of a string without CR has
    the normalized text of the input: the empty and the short ones are
    unchanged by [normalize], the others are folded with it. *)
Theorem question_text_normalized
    (data : json) (out : yaml) (i : nat) (d : list (str * json)) (q : str) :
  transform data = Ok out →
  input_nodes data !! i = Some (JDict d) →
  dict_get d k_question = Some (JStr q) →
  CR ∉ q →
  ∃ n' y, output_nodes out !! i = Some n' ∧
    ydict_get n' k_question = Some y ∧
    isinstance_str y = Some (normalize q).
Proof.
  intros Hout Hn Hq Hcr.
  destruct (transform_node _ _ _ _ Hout Hn) as (n' & Hn' & He).
  exists n', (classify_question q). split; [done|]. split.
  - by rewrite (node_entry_question _ _ He), Hq.
  - by apply classify_question_text.
Qed.

(** X6. A question that ends in a line feed is folded, however short, and
    the line feed is not part of the folded text. *)
Theorem trailing_LF_folds
    (data : json) (out : yaml) (i : nat) (d : list (str * json)) (q : str) :
  transform data = Ok out →
  input_nodes data !! i = Some (JDict d) →
  dict_get d k_question = Some (JStr (q ++ [LF])) →
  CR ∉ q → LF ∉ q →
  ∃ n', output_nodes out !! i = Some n' ∧
    ydict_get n' k_question = Some (YFolded q).
Proof.
  intros Hout Hn Hq Hcr Hlf.
  destruct (transform_node _ _ _ _ Hout Hn) as (n' & Hn' & He).
  exists n'. split; [done|].
  rewrite (node_entry_question _ _ He), Hq. f_equal.
  unfold classify_question.
  rewrite decide_False by (rewrite length_app; simpl; lia).
  assert (is_short_plain_question (q ++ [LF]) = false) as ->.
  { apply not_true_iff_false. intros [E|[H _]]%is_short_plain_question_iff.
    - by destruct q.
    - apply H. rewrite elem_of_app. right. by left. }
  f_equal. rewrite normalize_app_breaks by (constructor; [by right | done]).
  apply normalize_fixed; [done|].
  intros (l & ->)%last_Some. apply Hlf. rewrite elem_of_app. right. by left.
Qed.

(** ** Nodes that are not mappings *)

Section AssocFacts.
Context {V : Type}.

Lemma assoc_None_fresh (d : list (key * V)) (k : str) :
  assoc key_eqb (KStr k) d = None ↔ KStr k ∉ d.*1.
Proof.
  induction d as [|[k' v] d IH]; simpl.
  - split; [intros _ []%elem_of_nil | done].
  - rewrite not_elem_of_cons, <- IH.
    destruct (key_eqb k' (KStr k)) eqn:E.
    + apply key_eqb_KStr in E as ->. split; [done | by intros [? _]].
    + split; [|by intros [_ ?]]. intros H. split; [|done].
      intros <-. by rewrite key_eqb_KStr_KStr, str_eqb_refl in E.
Qed.

Lemma setitem_fresh (d : list (key * V)) (k : str) (v : V) :
  KStr k ∉ d.*1 → setitem key_eqb (KStr k) v d = d ++ [(KStr k, v)].
Proof.
  induction d as [|[k' v'] d IH]; [done|]. cbn.
  rewrite not_elem_of_cons. intros [Hne Hd].
  destruct (key_eqb k' (KStr k)) eqn:E.
  - by apply key_eqb_KStr in E as ->.
  - by rewrite IH.
Qed.
End AssocFacts.

Lemma dict_update_pairs (d : list (str * json)) (acc : list (key * json)) :
  NoDup (acc.*1 ++ (KStr <$> d.*1)) →
  dict_update acc ((λ kv, JList [JStr kv.1; kv.2]) <$> d)
  = Ok (acc ++ (prod_map KStr id <$> d)).
Proof.
  revert acc. induction d as [|[k v] d IH]; intros acc Hnd.
  { by rewrite app_nil_r. }
  rewrite !fmap_cons in Hnd. rewrite !fmap_cons.
  cbn [dict_update py_pair py_iter py_key mbind result_bind fst snd prod_map id].
  rewrite setitem_fresh.
  - rewrite IH.
    + by rewrite <- app_assoc.
    + rewrite fmap_app, <- app_assoc. exact Hnd.
  - apply NoDup_app in Hnd as (_ & Hnd & _). intros H.
    apply (Hnd _ H). by left.
Qed.

(** X7. A node written as the list of its [[key, value]] pairs, the keys
    distinct strings, is taken for the mapping: [dict(n)] builds the same
    dict, so the node comes out the same. *)
Theorem node_entry_pairs_of (d : list (str * json)) :
  NoDup d.*1 →
  py_dict (pairs_of d) = py_dict (JDict d) ∧
  node_entry (pairs_of d) = node_entry (JDict d).
Proof.
  intros Hnd.
  assert (py_dict (pairs_of d) = py_dict (JDict d)) as E.
  { unfold pairs_of. cbn [py_dict py_iter mbind result_bind].
    rewrite (dict_update_pairs d []); [done|].
    cbn [fmap list_fmap app]. apply NoDup_fmap_2; [|done]. by intros ?? [=]. }
  split; [done|]. unfold node_entry. by rewrite E.
Qed.

(** ** The exceptions of [transform] *)

Lemma bind_Raise_inv {A B} (m : result A) (f : A → result B) (e : exn) :
  m ≫= f = Raise e → m = Raise e ∨ ∃ a, m = Ok a ∧ f a = Raise e.
Proof.
  destruct m as [a|e']; simpl; intros H; [right; by exists a|].
  left. by injection H as ->.
Qed.

Lemma mapM_Raise {A B} (f : A → result B) (l : list A) (e : exn) :
  mapM f l = Raise e → ∃ x, x ∈ l ∧ f x = Raise e.
Proof.
  induction l as [|x l IH]; [done|].
  change (mapM f (x :: l)) with (y ← f x; k' ← mapM f l; Ok (y :: k')).
  intros [H|(y & Hy & [H|(k & _ & H)]%bind_Raise_inv)]%bind_Raise_inv.
  - exists x. split; [by left | done].
  - destruct (IH H) as (z & ? & ?). exists z. split; [by right | done].
  - done.
Qed.

Lemma py_get_Raise (o : json) (k : str) (dflt : json) (e : exn) :
  py_get o k dflt = Raise e → e = AttributeError.
Proof. destruct o; simpl; congruence. Qed.

Lemma py_iter_Raise (o : json) (e : exn) : py_iter o = Raise e → e = TypeError.
Proof. destruct o; simpl; congruence. Qed.

Lemma py_in_Raise (k : str) (o : json) (e : exn) : py_in k o = Raise e → e = TypeError.
Proof. destruct o; simpl; congruence. Qed.

(** After [k in o] has held, [o[k]] raises no [KeyError]. *)
Lemma py_getitem_guarded (k : str) (o : json) (e : exn) :
  py_in k o = Ok true → py_getitem o k = Raise e → e = TypeError.
Proof.
  destruct o as [| | | | | |d]; simpl; try congruence.
  intros [= [v Hv]%bool_decide_eq_true]. by rewrite Hv.
Qed.

Lemma prompt_entry_cases (p : json) :
  (prompt_shaped p = true ∧ ∃ y, prompt_entry p = Ok y) ∨
  (prompt_shaped p = false ∧ prompt_entry p = Raise AttributeError).
Proof.
  destruct (prompt_shaped p) eqn:E.
  { left. split; [done|]. by apply prompt_entry_total. }
  right. split; [done|].
  destruct p as [| | | | | |d]; try done.
  unfold prompt_entry. simpl in *.
  by destruct (dict_get d k_prompt) as [[| | | | | |]|].
Qed.

Lemma assoc_fmap_YJson (c : list (key * json)) (k : key) :
  assoc key_eqb k (prod_map id YJson <$> c) = YJson <$> assoc key_eqb k c.
Proof.
  induction c as [|[k' v] c IH]; [done|]. simpl. by destruct (key_eqb k' k).
Qed.

(** The entry of any node that [dict(n)] takes. *)
Lemma node_entry_of_dict (n : json) (c : list (key * json)) :
  py_dict n = Ok c →
  node_entry n =
  Ok (YDict match assoc key_eqb (KStr k_question) c with
            | Some (JStr q) =>
                setitem key_eqb (KStr k_question) (classify_question q)
                  (prod_map id YJson <$> c)
            | _ => prod_map id YJson <$> c
            end).
Proof.
  intros Hc. unfold node_entry. rewrite Hc. cbn [mbind result_bind].
  rewrite assoc_fmap_YJson.
  destruct (assoc key_eqb (KStr k_question) c) as [[| | | |q| |]|]; try done.
  change (default (YJson JNull) (YJson <$> Some (JStr q))) with (YJson (JStr q)).
  cbn [isinstance_str]. by rewrite question_style_plain.
Qed.

Lemma node_entry_Raise (n : json) (e : exn) :
  node_entry n = Raise e → py_dict n = Raise e.
Proof.
  destruct (py_dict n) as [c|e'] eqn:E.
  - by rewrite (node_entry_of_dict n c E).
  - unfold node_entry. rewrite E. simpl. by intros [= ->].
Qed.

Lemma dict_update_Raise (l : list json) (acc : list (key * json)) (e : exn) :
  dict_update acc l = Raise e → e = TypeError ∨ e = ValueError.
Proof.
  revert acc. induction l as [|x l IH]; intros acc; [done|].
  cbn [dict_update].
  intros [H|([k v] & _ & [H|(k' & _ & H)]%bind_Raise_inv)]%bind_Raise_inv.
  - unfold py_pair in H.
    apply bind_Raise_inv in H as [H%py_iter_Raise|(l' & _ & H)]; [by left|].
    right. destruct l' as [|? [|? [|? ?]]]; congruence.
  - left. simpl in H. destruct k; simpl in H; congruence.
  - by eapply IH.
Qed.

Lemma py_dict_Raise (n : json) (e : exn) :
  py_dict n = Raise e → e = TypeError ∨ e = ValueError.
Proof.
  destruct n as [| | | |s|l|d]; cbn [py_dict py_iter mbind result_bind];
    try (intros [= <-]; by left); try done; apply dict_update_Raise.
Qed.

(** X8. The exceptions [transform] raises are type, attribute and value
    errors: the subscript [g_in["startId"]] is behind the test of the key
    and raises no key error. *)
Theorem transform_raises (data : json) (e : exn) :
  transform data = Raise e →
  e = TypeError ∨ e = AttributeError ∨ e = ValueError.
Proof.
  unfold transform. intros H.
  apply bind_Raise_inv in H as [H%py_get_Raise|(prompts & _ & H)]; [auto|].
  apply bind_Raise_inv in H as [H%py_iter_Raise|(ps & _ & H)]; [auto|].
  apply bind_Raise_inv in H as [H|(ps' & _ & H)].
  { apply mapM_Raise in H as (p & _ & H).
    destruct (prompt_entry_cases p) as [(_ & y & Hy)|[_ Hp]]; [congruence|].
    rewrite Hp in H. injection H as <-. auto. }
  apply bind_Raise_inv in H as [H%py_get_Raise|(g_in & _ & H)]; [auto|].
  apply bind_Raise_inv in H as [H%py_in_Raise|(has & Hhas & H)]; [auto|].
  apply bind_Raise_inv in H as [H|(g_out & _ & H)].
  { destruct has; [|done].
    apply bind_Raise_inv in H as [H|(v & _ & H)]; [|done].
    left. by eapply py_getitem_guarded. }
  apply bind_Raise_inv in H as [H%py_get_Raise|(nodes & _ & H)]; [auto|].
  apply bind_Raise_inv in H as [H%py_iter_Raise|(ns & _ & H)]; [auto|].
  apply bind_Raise_inv in H as [H|(ns' & _ & H)]; [|done].
  apply mapM_Raise in H as (n & _ & H%node_entry_Raise%py_dict_Raise).
  destruct H; auto.
Qed.

(** X9. A list of prompts with an element that is not a mapping, or whose
    prompt is there and not a string, makes [transform] raise an attribute
    error. *)
Theorem transform_bad_prompt (d : list (str * json)) (l : list json) (p : json) :
  dict_get d k_prompts = Some (JList l) →
  p ∈ l → prompt_shaped p = false →
  transform (JDict d) = Raise AttributeError.
Proof.
  intros Hl Hp Hs. unfold transform. cbn [py_get mbind result_bind].
  rewrite Hl. cbn [default from_option id py_iter mbind result_bind].
  assert (mapM prompt_entry l = Raise AttributeError) as ->; [|done].
  clear Hl. induction l as [|x l IH]; [by apply elem_of_nil in Hp|].
  change (mapM prompt_entry (x :: l))
    with (y ← prompt_entry x; k' ← mapM prompt_entry l; Ok (y :: k')).
  destruct (prompt_entry_cases x) as [(Hx & y & ->)|[_ ->]]; [|done].
  cbn [mbind result_bind].
  apply elem_of_cons in Hp as [->|Hp]; [congruence|].
  by rewrite (IH Hp).
Qed.

(** ** When [transform] returns, exactly *)

Lemma transform_steps (data : json) (out : yaml) :
  transform data = Ok out →
  ∃ d g ps ns ps' ns',
    data = JDict d ∧
    py_iter (default (JList []) (dict_get d k_prompts)) = Ok ps ∧
    mapM prompt_entry ps = Ok ps' ∧
    default (JDict []) (dict_get d k_graph) = JDict g ∧
    py_iter (default (JList []) (dict_get g k_nodes)) = Ok ns ∧
    mapM node_entry ns = Ok ns'.
Proof.
  unfold transform. intros H. inv_bind H.
  apply py_get_Ok in Ha as (d & -> & ->).
  apply py_get_Ok in Ha2 as (d' & [= <-] & ->).
  apply py_get_Ok in Ha5 as (g & Hg & ->).
  exists d, g, a0, a6, a1, a7. by rewrite Hg.
Qed.

(** X10. [transform] returns exactly on the mappings whose [prompts] (the
    empty list when absent) can be iterated and holds only mappings with a
    string or no [prompt], whose [graph] (the empty mapping when absent) is
    a mapping, and whose [nodes] (the empty list when absent) can be
    iterated and holds only values [dict] takes. *)
Theorem transform_returns_iff (data : json) :
  (∃ out, transform data = Ok out) ↔
  ∃ d g ps ns,
    data = JDict d ∧
    py_iter (default (JList []) (dict_get d k_prompts)) = Ok ps ∧
    Forall (λ p, prompt_shaped p = true) ps ∧
    default (JDict []) (dict_get d k_graph) = JDict g ∧
    py_iter (default (JList []) (dict_get g k_nodes)) = Ok ns ∧
    Forall (λ n, ∃ c, py_dict n = Ok c) ns.
Proof.
  split.
  - intros [out (d & g & ps & ns & ps' & ns' & -> & Hps & Hps' & Hg & Hns & Hns')
              %transform_steps].
    exists d, g, ps, ns. repeat split; try done.
    + apply mapM_Ok_Forall2 in Hps'. apply Forall_forall. intros p Hp.
      apply list_elem_of_lookup in Hp as [i Hi].
      destruct (Forall2_lookup_l _ _ _ _ _ Hps' Hi) as (y & _ & Hy).
      destruct (prompt_entry_cases p) as [[? _]|[_ Hr]]; [done | congruence].
    + apply mapM_Ok_Forall2 in Hns'. apply Forall_forall. intros n Hn.
      apply list_elem_of_lookup in Hn as [i Hi].
      destruct (Forall2_lookup_l _ _ _ _ _ Hns' Hi) as (y & _ & Hy).
      destruct (py_dict n) as [c|e] eqn:E; [by exists c|].
      unfold node_entry in Hy. by rewrite E in Hy.
  - intros (d & g & ps & ns & -> & Hps & Hps' & Hg & Hns & Hns').
    destruct (mapM_total prompt_entry ps) as [ps' Hps''].
    { eapply Forall_impl; [done|]. apply prompt_entry_total. }
    destruct (mapM_total node_entry ns) as [ns' Hns''].
    { eapply Forall_impl; [done|]. intros n [c Hc].
      rewrite (node_entry_of_dict n c Hc). by eexists. }
    eexists. by eapply transform_run.
Qed.

(** X11. The output has as many prompts and as many nodes as the loops ran
    over: no element is dropped or added. *)
Theorem transform_lengths (data : json) (out : yaml) :
  transform data = Ok out →
  length (output_prompts out) = length (input_prompts data) ∧
  length (output_nodes out) = length (input_nodes data).
Proof.
  intros (g & ps & ns & _ & Hps%mapM_Ok_Forall2 & Hns%mapM_Ok_Forall2 & ->)%transform_Ok.
  rewrite output_prompts_shape, output_nodes_shape.
  split; symmetry; by eapply Forall2_length.
Qed.

(** X12. Only [prompts] and [graph] of the document, and only [startId] and
    [nodes] of the graph, are read, and an absent [prompts], [graph] or
    [nodes] is read as the empty one: two documents that agree on this have
    the same result, whatever else they hold. *)
Theorem transform_ignores_other_keys (d d' g g' : list (str * json)) :
  default (JList []) (dict_get d k_prompts) = default (JList []) (dict_get d' k_prompts) →
  default (JDict []) (dict_get d k_graph) = JDict g →
  default (JDict []) (dict_get d' k_graph) = JDict g' →
  dict_get g k_startId = dict_get g' k_startId →
  default (JList []) (dict_get g k_nodes) = default (JList []) (dict_get g' k_nodes) →
  transform (JDict d) = transform (JDict d').
Proof.
  intros Hp Hg Hg' Hs Hn. unfold transform.
  cbn [py_get mbind result_bind]. rewrite Hp, Hg, Hg'.
  cbn [py_in py_get py_getitem mbind result_bind].
  by rewrite Hs, Hn.
Qed.

(** X16. A [prompts] that is a string or a mapping is iterated, over its
    characters or its keys: the empty one gives the result of the empty
    list, any other raises an attribute error at its first element. *)
Theorem transform_prompts_not_list (d : list (str * json)) (v : json) :
  dict_get d k_prompts = Some v →
  (∃ s, v = JStr s) ∨ (∃ m, v = JDict m) →
  (v = JStr [] ∨ v = JDict [] →
     ∀ d', dict_get d' k_prompts = Some (JList []) →
       dict_get d' k_graph = dict_get d k_graph →
       transform (JDict d) = transform (JDict d')) ∧
  (v ≠ JStr [] → v ≠ JDict [] → transform (JDict d) = Raise AttributeError).
Proof.
  intros Hv Hkind. split.
  - intros He d' Hp' Hg'. unfold transform. cbn [py_get mbind result_bind].
    rewrite Hv, Hp', Hg'. by destruct He as [-> | ->].
  - intros Hs Hm. unfold transform. cbn [py_get mbind result_bind]. rewrite Hv.
    destruct Hkind as [[[|c s] ->]|[[|[k x] m] ->]]; done.
Qed.

(** X17. The question of a node that is a string comes out folded exactly
    when it has a line feed or more than 40 characters. *)
Theorem question_folded_iff
    (data : json) (out : yaml) (i : nat) (d : list (str * json)) (q : str) :
  transform data = Ok out →
  input_nodes data !! i = Some (JDict d) →
  dict_get d k_question = Some (JStr q) →
  ∃ n' y, output_nodes out !! i = Some n' ∧
    ydict_get n' k_question = Some y ∧
    ((∃ s, y = YFolded s) ↔ (LF ∈ q) ∨ (40 < length q)%nat).
Proof.
  intros Hout Hn Hq.
  destruct (transform_node _ _ _ _ Hout Hn) as (n' & Hn' & He).
  exists n', (classify_question q). split; [done|]. split.
  { by rewrite (node_entry_question _ _ He), Hq. }
  unfold classify_question.
  destruct (decide (length q = 0%nat)) as [Hl|Hl].
  { apply nil_length_inv in Hl as ->. split; [by intros [? ?]|].
    intros [?%elem_of_nil|?]; [done | simpl in *; lia]. }
  destruct (is_short_plain_question q) eqn:E.
  - apply is_short_plain_question_iff in E as [->|[Hlf Hlen]]; [done|].
    split; [by intros [? ?]|]. intros [?|?]; [done | lia].
  - split; [|by eexists]. intros _.
    destruct (decide (LF ∈ q)) as [?|Hlf]; [by left|]. right.
    destruct (le_lt_dec (length q) 40) as [Hle|?]; [|done].
    rewrite (proj2 (is_short_plain_question_iff q)) in E by auto. done.
Qed.

(** ** Line ending conventions *)

Lemma line_endings_no_CR (t : str) : CR ∉ t → line_endings_to_LF t = t.
Proof.
  induction t as [|c t IH]; [done|].
  rewrite not_elem_of_cons. intros [Hc Ht].
  rewrite line_endings_other by done. by rewrite IH.
Qed.

Lemma replace_single_cons (a c : N) (new s : str) :
  replace [a] new (c :: s) = (if a =? c then new else [c]) ++ replace [a] new s.
Proof.
  unfold replace. cbn [replace_from]. rewrite startswith_single.
  by destruct (a =? c).
Qed.

(** X13. A text without CR normalizes to the same whether its lines end in
    LF, in CRLF or in CR. *)
Theorem normalize_line_ending_conventions (t : str) :
  CR ∉ t →
  normalize (replace [LF] [CR; LF] t) = normalize t ∧
  normalize (replace [LF] [CR] t) = normalize t.
Proof.
  intros Hcr. rewrite !normalize_line_endings, (line_endings_no_CR t Hcr).
  assert (line_endings_to_LF (replace [LF] [CR; LF] t) = t) as ->.
  { induction t as [|c t IH]; [done|].
    apply not_elem_of_cons in Hcr as [Hc Ht].
    rewrite replace_single_cons. destruct (N.eqb_spec LF c) as [<-|Hne].
    - cbn [app]. by rewrite line_endings_CRLF, IH.
    - cbn [app]. by rewrite line_endings_other, IH. }
  split; [done|]. f_equal.
  assert (H : ∀ s, CR ∉ s →
            line_endings_to_LF (replace [LF] [CR] s) = s ∧
            ∀ r, replace [LF] [CR] s ≠ LF :: r).
  { clear t Hcr. induction s as [|c s IH]; [done|].
    intros [Hc [IH1 IH2]%IH]%not_elem_of_cons.
    rewrite replace_single_cons. destruct (N.eqb_spec LF c) as [<-|Hne].
    - split; [|done]. cbn [app].
      destruct (replace [LF] [CR] s) as [|c' r] eqn:E.
      + by rewrite <- IH1.
      + rewrite line_endings_CR, IH1; [done|]. intros ->. by eapply IH2.
    - split; [|by intros r [= ? _]]. cbn [app].
      by rewrite line_endings_other, IH1. }
  by apply H.
Qed.

(** ** More on the driver *)

Section DriverMore.
Variable exn_str : exn → str.




(** X15. A run whose reading or transform fails does not get to the output:
    its outcome is the same whatever the writing would have done, the file
    is not opened. *)
Theorem bad_input_leaves_output (w w' : world) (a : args) (e : exn) :
  parse_args w = Parsed a →
  load_json w (input a) ≫= transform = Raise e →
  ruamel_importable w' = ruamel_importable w →
  parse_args w' = parse_args w →
  stdin_json w' = stdin_json w →
  file_json w' = file_json w →
  script exn_str w' = script exn_str w.
Proof.
  intros Ha He Hi' Ha' Hs' Hf'. unfold script, main. rewrite Hi', Ha', Ha.
  destruct (ruamel_importable w); [|done].
  assert (load_json w' (input a) = load_json w (input a)) as Hl.
  { unfold load_json. by rewrite Hs', Hf'. }
  unfold convert. rewrite Hl.
  apply bind_Raise_inv in He as [->|(data & -> & He)]; [done|].
  cbn [mbind result_bind]. by rewrite He.
Qed.
End DriverMore.

(** ** The documents, run through these properties *)

Lemma normalize_fixed_iff_witness :
  normalize (lit "Start") = lit "Start" ∧ normalize [65; CR] ≠ [65; CR].
Proof.
  split.
  - apply (proj2 (normalize_fixed_iff (lit "Start"))). split.
    + apply contains_single_false. reflexivity.
    + discriminate.
  - intros E. apply (proj1 (normalize_fixed_iff [65; CR])) in E as [H _].
    apply H, contains_single. reflexivity.
Defined.

Lemma normalize_trailing_breaks_witness :
  Forall line_break [CR; LF; LF; CR] ∧
  normalize (lit "Hello" ++ [CR; LF; LF; CR]) = normalize (lit "Hello").
Proof.
  assert (H : Forall line_break [CR; LF; LF; CR]).
  { repeat constructor; first [by left | by right]. }
  split; [exact H|]. exact (normalize_trailing_breaks (lit "Hello") _ H).
Defined.

Lemma normalize_empty_iff_witness :
  normalize [LF; CR; CR; LF] = [] ∧ ¬ Forall line_break (lit "a").
Proof.
  split.
  - apply (proj2 (normalize_empty_iff [LF; CR; CR; LF])).
    repeat constructor; first [by left | by right].
  - intros H. by apply (proj2 (normalize_empty_iff (lit "a"))) in H.
Defined.

Lemma question_text_normalized_witness :
  ∃ n' y, output_nodes survey_out !! 0%nat = Some n' ∧
    ydict_get n' k_question = Some y ∧
    isinstance_str y = Some (normalize (lit "Start")).
Proof.
  exact (question_text_normalized survey survey_out 0 node1 (lit "Start")
           eq_refl eq_refl eq_refl
           (proj1 (contains_single_false CR (lit "Start")) eq_refl)).
Defined.

Lemma trailing_LF_folds_witness :
  is_short_plain_question hi_question = true ∧
  ∃ n', output_nodes survey_hi_out !! 0%nat = Some n' ∧
    ydict_get n' k_question = Some (YFolded hi_question).
Proof.
  split; [reflexivity|].
  exact (trailing_LF_folds survey_hi survey_hi_out 0 node_hi hi_question
           eq_refl eq_refl eq_refl
           (proj1 (contains_single_false CR hi_question) eq_refl)
           (proj1 (contains_single_false LF hi_question) eq_refl)).
Defined.

Lemma node_entry_pairs_of_witness :
  NoDup node2.*1 ∧
  py_dict (pairs_of node2) = py_dict (JDict node2) ∧
  node_entry (pairs_of node2) = node_entry (JDict node2).
Proof.
  assert (H : NoDup node2.*1) by (apply (bool_decide_unpack _); exact I).
  split; [exact H|]. exact (node_entry_pairs_of node2 H).
Defined.

Lemma transform_raises_witness :
  transform (JDict [(k_graph, JDict [(k_nodes, JList [JStr (lit "abc")])])])
    = Raise ValueError ∧
  (ValueError = TypeError ∨ ValueError = AttributeError ∨ ValueError = ValueError).
Proof.
  split; [reflexivity|].
  exact (transform_raises
           (JDict [(k_graph, JDict [(k_nodes, JList [JStr (lit "abc")])])]) ValueError
           eq_refl).
Defined.

Lemma transform_bad_prompt_witness :
  transform (JDict [(k_prompts, JList [JDict []; JDict [(k_prompt, JInt 3)]])])
  = Raise AttributeError.
Proof.
  apply (transform_bad_prompt _ [JDict []; JDict [(k_prompt, JInt 3)]]
           (JDict [(k_prompt, JInt 3)])); [reflexivity| |reflexivity].
  right. by left.
Defined.

Lemma transform_returns_iff_witness :
  ∃ d g ps ns,
    survey = JDict d ∧
    py_iter (default (JList []) (dict_get d k_prompts)) = Ok ps ∧
    Forall (λ p, prompt_shaped p = true) ps ∧
    default (JDict []) (dict_get d k_graph) = JDict g ∧
    py_iter (default (JList []) (dict_get g k_nodes)) = Ok ns ∧
    Forall (λ n, ∃ c, py_dict n = Ok c) ns.
Proof.
  apply (proj1 (transform_returns_iff survey)). by exists survey_out.
Defined.

Lemma transform_lengths_witness :
  length (output_prompts survey_out) = length (input_prompts survey) ∧
  length (output_nodes survey_out) = length (input_nodes survey).
Proof. exact (transform_lengths survey survey_out eq_refl). Defined.

Lemma transform_ignores_other_keys_witness :
  transform (JDict survey_top) = transform survey.
Proof.
  apply (transform_ignores_other_keys survey_top _
           [(lit "title", JStr (lit "demo")); (k_startId, JStr (lit "n1"));
            (k_nodes, JList [JDict node1; JDict node2; JDict node3; JDict node4])]
           [(k_startId, JStr (lit "n1"));
            (k_nodes, JList [JDict node1; JDict node2; JDict node3; JDict node4])]);
    reflexivity.
Defined.

Lemma transform_prompts_not_list_witness :
  transform (JDict [(k_prompts, JStr [])]) = transform (JDict [(k_prompts, JList [])]) ∧
  transform (JDict [(k_prompts, JDict [(lit "n1", JStr (lit "Hello"))])])
    = Raise AttributeError.
Proof.
  split.
  - apply (proj1 (transform_prompts_not_list [(k_prompts, JStr [])] (JStr []) eq_refl
                    (or_introl (ex_intro _ [] eq_refl))));
      [by left | reflexivity | reflexivity].
  - apply (proj2 (transform_prompts_not_list
                    [(k_prompts, JDict [(lit "n1", JStr (lit "Hello"))])]
                    (JDict [(lit "n1", JStr (lit "Hello"))]) eq_refl
                    (or_intror (ex_intro _ _ eq_refl)))); discriminate.
Defined.

Lemma question_folded_iff_witness :
  ∃ n' y, output_nodes survey_out !! 1%nat = Some n' ∧
    ydict_get n' k_question = Some y ∧
    ((∃ s, y = YFolded s) ↔ (LF ∈ long_question) ∨ (40 < length long_question)%nat).
Proof.
  exact (question_folded_iff survey survey_out 1 node2 long_question
           eq_refl eq_refl eq_refl).
Defined.

Lemma normalize_line_ending_conventions_witness :
  normalize (lit "a" ++ [CR; LF] ++ lit "b" ++ [CR; LF])
    = normalize (lit "a" ++ [LF] ++ lit "b" ++ [LF]) ∧
  normalize (lit "a" ++ [CR] ++ lit "b" ++ [CR])
    = normalize (lit "a" ++ [LF] ++ lit "b" ++ [LF]).
Proof.
  exact (normalize_line_ending_conventions (lit "a" ++ [LF] ++ lit "b" ++ [LF])
           (proj1 (contains_single_false CR (lit "a" ++ [LF] ++ lit "b" ++ [LF])) eq_refl)).
Defined.


Lemma bad_input_leaves_output_witness :
  script exn_name
    {| ruamel_importable := true;
       parse_args := Parsed {| input := lit "-"; output := None |};
       stdin_json := Ok (JList []);
       file_json := λ _, Raise (External (lit "No such file or directory"));
       stdout_dump := λ _, Raise (External (lit "Broken pipe"));
       file_dump := λ _ _, Ok () |}
  = script exn_name (pipe_world true (Ok (JList []))).
Proof.
  by apply (bad_input_leaves_output exn_name (pipe_world true (Ok (JList []))) _
              {| input := lit "-"; output := None |} AttributeError).
Defined.
